(** * Ingestion gateway and worker: a shallow embedding

    The development follows the two services of the repository:
    - [src/worker/main.py]: [simulate_heavy_processing], [save_to_firestore]
      and the push handler [process_pubsub];
    - [src/api/main.py]: [normalize_to_internal_format], [publish_to_pubsub]
      and the handler [ingest].

    Python [str] values are modelled by [string]; a character is a code
    point below 256 (type [ascii], read as Latin-1), for which the
    character classes of Python's [re] module are written out in full. *)

From Stdlib Require Import Ascii String List ZArith Lia Bool.
From stdpp Require Import base option gmap strings.
Import ListNotations.

Local Open Scope string_scope.
Local Open Scope list_scope.

(** ** The [re] fragment used by the worker *)

Module Re.

(** [\d] on [str] patterns: the decimal digits. *)
Definition is_digit (c : ascii) : bool :=
  let n := nat_of_ascii c in (48 <=? n)%nat && (n <=? 57)%nat.

(** [\s] on [str] patterns: Unicode white space (code points below 256). *)
Definition is_space (c : ascii) : bool :=
  let n := nat_of_ascii c in
  ((9 <=? n)%nat && (n <=? 13)%nat) || ((28 <=? n)%nat && (n <=? 32)%nat)
  || (n =? 133)%nat || (n =? 160)%nat.

(** [\w] on [str] patterns: alphanumeric code points and the underscore. *)
Definition is_word (c : ascii) : bool :=
  let n := nat_of_ascii c in
  ((48 <=? n)%nat && (n <=? 57)%nat)
  || ((65 <=? n)%nat && (n <=? 90)%nat)
  || (n =? 95)%nat
  || ((97 <=? n)%nat && (n <=? 122)%nat)
  || (n =? 170)%nat || (n =? 178)%nat || (n =? 179)%nat || (n =? 181)%nat
  || (n =? 185)%nat || (n =? 186)%nat
  || ((188 <=? n)%nat && (n <=? 190)%nat)
  || ((192 <=? n)%nat && (n <=? 214)%nat)
  || ((216 <=? n)%nat && (n <=? 246)%nat)
  || ((248 <=? n)%nat && (n <=? 255)%nat).

(** The class [[-.\s]]. *)
Definition is_sep (c : ascii) : bool :=
  (nat_of_ascii c =? 45)%nat || (nat_of_ascii c =? 46)%nat || is_space c.

(** The pieces a pattern is made of here: the assertion [\b] and a greedy
    bounded repetition [cls{lo,hi}] of a one-character class. *)
Inductive atom : Type :=
| Boundary
| Repeat (cls : ascii -> bool) (lo hi : nat).

(** A position in the subject: the character to its left, if any, and
    what remains to its right. *)
Definition cursor : Type := option ascii * list ascii.

Definition word_opt (o : option ascii) : bool :=
  match o with Some c => is_word c | None => false end.

(** [\b] holds where exactly one neighbour is a word character; the
    outside of the subject counts as a non-word character. *)
Definition word_boundary (left right : option ascii) : bool :=
  xorb (word_opt left) (word_opt right).

(** The character to the left of the cursor after reading [m]. *)
Definition last_of (prev : option ascii) (m : list ascii) : option ascii :=
  fold_left (fun _ c => Some c) m prev.

(** All the ways [cls{lo,hi}] can match at a cursor, in the order a
    backtracking matcher tries them: the longest first. *)
Fixpoint rep_greedy (cls : ascii -> bool) (lo hi : nat)
         (prev : option ascii) (s : list ascii) : list cursor :=
  match hi with
  | O => match lo with O => [(prev, s)] | S _ => [] end
  | S hi' =>
      (match s with
       | c :: s' =>
           if cls c then rep_greedy cls (Nat.pred lo) hi' (Some c) s' else []
       | [] => []
       end)
      ++ (match lo with O => [(prev, s)] | S _ => [] end)
  end.

Definition match_atom (a : atom) (cur : cursor) : list cursor :=
  match a with
  | Boundary =>
      if word_boundary (fst cur) (head (snd cur)) then [cur] else []
  | Repeat cls lo hi => rep_greedy cls lo hi (fst cur) (snd cur)
  end.

(** All the matches of a sequence of atoms, in backtracking order. *)
Fixpoint match_seq (p : list atom) (cur : cursor) : list cursor :=
  match p with
  | [] => [cur]
  | a :: p' => flat_map (match_seq p') (match_atom a cur)
  end.

(** The match the engine reports at a position: the first success. Its
    value is the number of characters consumed. *)
Definition match_len (p : list atom) (prev : option ascii)
           (s : list ascii) : option nat :=
  match match_seq p (prev, s) with
  | [] => None
  | (_, rest) :: _ => Some (length s - length rest)
  end.

(** [re.sub(p, repl, s)]: scan from the left; at each position outside a
    match try the pattern, emit [repl] for a match and resume after it,
    copy the character otherwise. [skip] counts the characters of the
    current match still to be dropped. An empty match emits [repl] and
    copies the character. *)
Fixpoint sub_scan (p : list atom) (repl : list ascii) (skip : nat)
         (prev : option ascii) (s : list ascii) : list ascii :=
  match skip with
  | S k =>
      match s with
      | c :: s' => sub_scan p repl k (Some c) s'
      | [] => []
      end
  | O =>
      match match_len p prev s with
      | Some (S k) =>
          repl ++ match s with
                  | c :: s' => sub_scan p repl k (Some c) s'
                  | [] => []
                  end
      | Some O =>
          repl ++ match s with
                  | c :: s' => c :: sub_scan p repl 0 (Some c) s'
                  | [] => []
                  end
      | None =>
          match s with
          | c :: s' => c :: sub_scan p repl 0 (Some c) s'
          | [] => []
          end
      end
  end.

Definition sub (p : list atom) (repl : string) (text : string) : string :=
  string_of_list_ascii
    (sub_scan p (list_ascii_of_string repl) 0 None
              (list_ascii_of_string text)).

End Re.

(** ** Worker: the transform *)

(** [r'\b\d{3}[-.\s]?\d{3,4}[-.\s]?\d{4}\b'] *)
Definition phone_pattern : list Re.atom :=
  [ Re.Boundary;
    Re.Repeat Re.is_digit 3 3;
    Re.Repeat Re.is_sep 0 1;
    Re.Repeat Re.is_digit 3 4;
    Re.Repeat Re.is_sep 0 1;
    Re.Repeat Re.is_digit 4 4;
    Re.Boundary ].

Definition REDACTED : string := "[REDACTED]".

(** The nominal pause of [simulate_heavy_processing], in milliseconds:
    0.05 s per character, capped at 30 s. It has no part in the result. *)
Definition sleep_time_ms (text : string) : N :=
  N.min (N.of_nat (String.length text) * 50) 30000.

Definition simulate_heavy_processing (text : string) : string :=
  Re.sub phone_pattern REDACTED text.

(** ** Python values and the operations the handlers apply to them *)

(** What [json.loads] and [request.get_json] can return. A dict is the list
    of its items; numbers are the integers ([float] values take the same
    branches as [int] values in both handlers). *)
#[warnings="-register-all"]
Inductive pyval : Type :=
| VNone
| VBool (b : bool)
| VInt (z : Z)
| VStr (s : string)
| VList (l : list pyval)
| VDict (d : list (string * pyval)).

(** The exceptions that can reach the handlers' [except Exception]. *)
Inductive exn : Type :=
| TypeError
| AttributeError
| KeyError
| LibraryError (name : string).

(** A computation that returns or raises. *)
Inductive res (A : Type) : Type :=
| Ret (a : A)
| Raise (e : exn).
Arguments Ret {A} a.
Arguments Raise {A} e.

Definition bind {A B : Type} (c : res A) (k : A -> res B) : res B :=
  match c with
  | Ret a => k a
  | Raise e => Raise e
  end.

Declare Scope res_scope.
Delimit Scope res_scope with res.
Notation "x <- c ;; k" := (bind c (fun x => k))
  (at level 100, c at next level, right associativity) : res_scope.
Local Open Scope res_scope.

(** [bool(v)]. *)
Definition truthy (v : pyval) : bool :=
  match v with
  | VNone => false
  | VBool b => b
  | VInt z => negb (z =? 0)%Z
  | VStr s => negb (String.eqb s "")
  | VList l => match l with [] => false | _ :: _ => true end
  | VDict d => match d with [] => false | _ :: _ => true end
  end.

Fixpoint dict_lookup (k : string) (d : list (string * pyval)) : option pyval :=
  match d with
  | [] => None
  | (k', v) :: d' => if String.eqb k k' then Some v else dict_lookup k d'
  end.

(** [needle in hay] on two strings. *)
Fixpoint str_contains (needle hay : string) : bool :=
  String.prefix needle hay
  || match hay with
     | EmptyString => false
     | String _ hay' => str_contains needle hay'
     end.

Definition is_str (k : string) (v : pyval) : bool :=
  match v with VStr s => String.eqb s k | _ => false end.

(** [k in v] for a string [k]. *)
Definition py_contains (k : string) (v : pyval) : res bool :=
  match v with
  | VDict d => Ret (match dict_lookup k d with Some _ => true | None => false end)
  | VList l => Ret (existsb (is_str k) l)
  | VStr s => Ret (str_contains k s)
  | VNone | VBool _ | VInt _ => Raise TypeError
  end.

(** [v[k]] for a string [k]. *)
Definition py_getitem (v : pyval) (k : string) : res pyval :=
  match v with
  | VDict d => match dict_lookup k d with Some x => Ret x | None => Raise KeyError end
  | _ => Raise TypeError
  end.

(** [v.get(k, dflt)]; [v.get(k)] is [py_get v k VNone]. *)
Definition py_get (v : pyval) (k : string) (dflt : pyval) : res pyval :=
  match v with
  | VDict d => Ret (match dict_lookup k d with Some x => x | None => dflt end)
  | _ => Raise AttributeError
  end.

(** Whether a dict has a value under [k] that is not empty. *)
Definition field_truthy (k : string) (d : list (string * pyval)) : bool :=
  match dict_lookup k d with Some v => truthy v | None => false end.

(** [jsonify(body), status]. *)
Record response : Type := Response {
  body : list (string * pyval);
  status : Z
}.

Definition error_response (reason : string) (code : Z) : response :=
  Response [("error", VStr reason)] code.

(** ** Worker: the store and the push handler *)

(** A Firestore document, as the dict passed to [set]. *)
Definition document : Type := list (string * pyval).

(** The path of [db.collection("tenants").document(tenant_id)
    .collection("processed_logs").document(log_id)]. *)
Definition doc_path (tenant_id log_id : string) : string :=
  "tenants/" ++ tenant_id ++ "/processed_logs/" ++ log_id.

(** What one invocation of the worker reads from outside: the value of
    [datetime.utcnow().isoformat()] and whether the store accepts the
    write. *)
Record worker_env : Type := WorkerEnv {
  w_utcnow : string;
  firestore_accepts : bool
}.

(** [save_to_firestore]: builds the document reference (the ids must be
    [str]), the document, and replaces whatever the store holds at the
    path. *)
Definition save_to_firestore (env : worker_env) (tenant_id log_id : pyval)
           (original_text modified_text : string) (source received_at : pyval)
           (db : gmap string document) : res (gmap string document) :=
  match tenant_id, log_id with
  | VStr t, VStr l =>
      let doc_data : document :=
        [ ("source", source);
          ("original_text", VStr original_text);
          ("modified_data", VStr modified_text);
          ("processed_at", VStr (w_utcnow env ++ "Z"));
          ("received_at", received_at);
          ("text_length", VInt (Z.of_nat (String.length original_text))) ] in
      if firestore_accepts env
      then Ret (<[doc_path t l := doc_data]> db)
      else Raise (LibraryError "firestore")
  | _, _ => Raise TypeError
  end.

Section Worker.

(** The library calls of the handler, taken as they are:
    [base64.b64decode(x).decode("utf-8")], [json.loads] and [str(e)]. *)
Variable b64decode_utf8 : pyval -> res string.
Variable json_loads : string -> res pyval.
Variable exn_str : exn -> string.

(** The handler from the decoded message on: the fields, the check that
    none of the four is empty, the transform (only a [str] gets through
    [len], [time.sleep] and [re.sub]) and the write. *)
Definition process_message (env : worker_env) (message : pyval)
           (db : gmap string document) : res (response * gmap string document) :=
  tenant_id <- py_get message "tenant_id" VNone ;;
  log_id <- py_get message "log_id" VNone ;;
  text <- py_get message "text" VNone ;;
  source <- py_get message "source" VNone ;;
  received_at <- py_get message "received_at" VNone ;;
  if negb (forallb truthy [tenant_id; log_id; text; source])
  then Ret (error_response "Missing required fields in message" 400, db)
  else
    match text with
    | VStr original_text =>
        let modified_text := simulate_heavy_processing original_text in
        db' <- save_to_firestore env tenant_id log_id original_text
                                 modified_text source received_at db ;;
        Ret (Response [ ("status", VStr "processed");
                        ("tenant_id", tenant_id);
                        ("log_id", log_id) ] 200, db')
    | _ => Raise TypeError
    end.

(** The [try] block of [process_pubsub]. [get_json] is the outcome of
    [request.get_json()]. *)
Definition process_pubsub_try (env : worker_env) (get_json : res pyval)
           (db : gmap string document) : res (response * gmap string document) :=
  envelope <- get_json ;;
  if negb (truthy envelope)
  then Ret (error_response "No Pub/Sub message received" 400, db)
  else
    has_message <- py_contains "message" envelope ;;
    if negb has_message
    then Ret (error_response "Invalid Pub/Sub message format" 400, db)
    else
      pubsub_message <- py_getitem envelope "message" ;;
      has_data <- py_contains "data" pubsub_message ;;
      if has_data
      then
        data <- py_getitem pubsub_message "data" ;;
        message_data <- b64decode_utf8 data ;;
        message <- json_loads message_data ;;
        process_message env message db
      else Ret (error_response "No data in Pub/Sub message" 400, db).

(** [process_pubsub]: whatever the [try] block raises becomes a 500. *)
Definition process_pubsub (env : worker_env) (get_json : res pyval)
           (db : gmap string document) : response * gmap string document :=
  match process_pubsub_try env get_json db with
  | Ret r => r
  | Raise e => (error_response (exn_str e) 500, db)
  end.

(** The record a delivery carries: the steps of the handler from the
    envelope to the value of [json.loads]. *)
Definition decode_delivery (envelope : pyval) : res pyval :=
  pubsub_message <- py_getitem envelope "message" ;;
  data <- py_getitem pubsub_message "data" ;;
  message_data <- b64decode_utf8 data ;;
  json_loads message_data.




End Worker.

(** ** Gateway *)

(** What [ingest] reads of the request: [request.content_type], the outcome
    of [request.get_json()], the [X-Tenant-ID] header and
    [request.get_data(as_text=True)]. *)
Record request : Type := Request {
  content_type : option string;
  get_json : res pyval;
  x_tenant_id : option string;
  get_data : string
}.

(** What one invocation of the gateway reads from outside: the clock, the
    value of [str(uuid.uuid4())] and what the bus answers to a publish (the
    message id, or an exception). *)
Record gateway_env : Type := GatewayEnv {
  g_utcnow : string;
  uuid4 : string;
  publish_result : res string
}.

(** A message on the topic: the dict that was serialised and the
    [tenant_id] attribute. The bus is the list of the messages published,
    the latest first. *)
Record published : Type := Published {
  payload : pyval;
  attr_tenant_id : string
}.

Definition normalize_to_internal_format (env : gateway_env)
           (tenant_id log_id text : pyval) (source : string) : pyval :=
  VDict [ ("tenant_id", tenant_id);
          ("log_id", log_id);
          ("text", text);
          ("source", VStr source);
          ("received_at", VStr (g_utcnow env ++ "Z")) ].

(** [publish_to_pubsub]: the attribute must be a [str]; the message is on
    the topic when [future.result()] returns its id. *)
Definition publish_to_pubsub (env : gateway_env) (message : pyval)
           (bus : list published) : res (string * list published) :=
  tenant_id <- py_getitem message "tenant_id" ;;
  match tenant_id with
  | VStr t =>
      message_id <- publish_result env ;;
      Ret (message_id, Published message t :: bus)
  | _ => Raise TypeError
  end.

(** The part of [ingest] after the branches: normalise, publish, answer. *)
Definition ingest_publish (env : gateway_env) (tenant_id log_id text : pyval)
           (source : string) (bus : list published)
  : res (response * list published) :=
  let normalized_message :=
    normalize_to_internal_format env tenant_id log_id text source in
  r <- publish_to_pubsub env normalized_message bus ;;
  Ret (Response [ ("status", VStr "accepted");
                  ("message_id", VStr (fst r));
                  ("log_id", log_id);
                  ("tenant_id", tenant_id) ] 202, snd r).

(** The [try] block of [ingest]. *)
Definition ingest_try (env : gateway_env) (req : request)
           (bus : list published) : res (response * list published) :=
  let ct := match content_type req with Some c => c | None => "" end in
  if str_contains "application/json" ct then
    data <- get_json req ;;
    if negb (truthy data)
    then Ret (error_response "Invalid JSON payload" 400, bus)
    else
      tenant_id <- py_get data "tenant_id" VNone ;;
      text <- py_get data "text" VNone ;;
      if negb (truthy tenant_id)
      then Ret (error_response "Missing tenant_id" 400, bus)
      else if negb (truthy text)
      then Ret (error_response "Missing text" 400, bus)
      else
        log_id <- py_get data "log_id" (VStr (uuid4 env)) ;;
        ingest_publish env tenant_id log_id text "json_upload" bus
  else if str_contains "text/plain" ct then
    let tenant_id := x_tenant_id req in
    match tenant_id with
    | None | Some EmptyString =>
        Ret (error_response "Missing X-Tenant-ID header" 400, bus)
    | Some t =>
        let text := get_data req in
        if String.eqb text ""
        then Ret (error_response "Empty text payload" 400, bus)
        else
          ingest_publish env (VStr t) (VStr (uuid4 env)) (VStr text)
                         "text_upload" bus
    end
  else
    Ret (error_response
           "Unsupported Content-Type. Use application/json or text/plain" 415,
         bus).

(** [ingest]: whatever the [try] block raises becomes a 500. *)
Definition ingest (env : gateway_env) (req : request) (bus : list published)
  : response * list published :=
  match ingest_try env req bus with
  | Ret r => r
  | Raise _ => (error_response "Internal server error" 500, bus)
  end.

(** ** The phone-number shape, in the words of the specification *)

Definition all_digits (d : list ascii) : Prop := forallb Re.is_digit d = true.

(** A separator: a hyphen, a period, white space, or absent. *)
Definition optional_sep (s : list ascii) : Prop :=
  s = [] \/
  exists c, s = [c] /\ (c = "-"%char \/ c = "."%char \/ Re.is_space c = true).

(** Three digits, separator, three or four digits, separator, four digits. *)
Definition phone_groups (d1 s1 d2 s2 d3 : list ascii) : Prop :=
  all_digits d1 /\ length d1 = 3 /\
  optional_sep s1 /\
  all_digits d2 /\ (length d2 = 3 \/ length d2 = 4) /\
  optional_sep s2 /\
  all_digits d3 /\ length d3 = 4.

Definition phone_shape (m : list ascii) : Prop :=
  exists d1 s1 d2 s2 d3,
    m = d1 ++ s1 ++ d2 ++ s2 ++ d3 /\ phone_groups d1 s1 d2 s2 d3.

(** The same with the leading group in parentheses. *)
Definition phone_shape_parenthesized (m : list ascii) : Prop :=
  exists d1 s1 d2 s2 d3,
    m = ("("%char :: d1) ++ (")"%char :: s1) ++ d2 ++ s2 ++ d3
    /\ phone_groups d1 s1 d2 s2 d3.

(** [m], read after [prev] and followed by [rest], starts and ends at a
    word boundary. *)
Definition delimited (prev : option ascii) (m rest : list ascii) : Prop :=
  Re.word_boundary prev (head (m ++ rest)) = true /\
  Re.word_boundary (Re.last_of prev m) (head rest) = true.

(** [redacted prev s out]: [out] is [s] read from the left, where every
    delimited phone number met is replaced by the marker and every other
    character is kept. A character is kept only where no delimited phone
    number starts. *)
Inductive redacted : option ascii -> list ascii -> list ascii -> Prop :=
| redacted_nil prev :
    redacted prev [] []
| redacted_keep prev c s out :
    (forall m rest, c :: s = m ++ rest -> phone_shape m -> ~ delimited prev m rest) ->
    redacted (Some c) s out ->
    redacted prev (c :: s) (c :: out)
| redacted_hit prev m rest out :
    phone_shape m -> delimited prev m rest ->
    redacted (Re.last_of prev m) rest out ->
    redacted prev (m ++ rest) (list_ascii_of_string REDACTED ++ out).

(** [re.search(p, s) is None], from the cursor on. *)
Fixpoint search_free (p : list Re.atom) (prev : option ascii)
         (s : list ascii) : bool :=
  match Re.match_len p prev s with
  | Some _ => false
  | None =>
      match s with
      | [] => true
      | c :: s' => search_free p (Some c) s'
      end
  end.

(** What a sequence of atoms matches: [m], read after [prev] and followed
    by [rest]. *)
Fixpoint matches (p : list Re.atom) (prev : option ascii)
         (m rest : list ascii) : Prop :=
  match p with
  | [] => m = []
  | Re.Boundary :: p' =>
      Re.word_boundary prev (head (m ++ rest)) = true /\ matches p' prev m rest
  | Re.Repeat cls lo hi :: p' =>
      exists m1 m2,
        m = m1 ++ m2 /\ forallb cls m1 = true /\
        lo <= length m1 <= hi /\
        matches p' (Re.last_of prev m1) m2 rest
  end.

(** A phone number whose leading group is in parentheses, as a pattern:
    [r'\(\d{3}\)[-.\s]?\d{3,4}[-.\s]?\d{4}']. *)
Definition is_lparen (c : ascii) : bool := Ascii.eqb c "(".
Definition is_rparen (c : ascii) : bool := Ascii.eqb c ")".

Definition parenthesized_pattern : list Re.atom :=
  [ Re.Repeat is_lparen 1 1;
    Re.Repeat Re.is_digit 3 3;
    Re.Repeat is_rparen 1 1;
    Re.Repeat Re.is_sep 0 1;
    Re.Repeat Re.is_digit 3 4;
    Re.Repeat Re.is_sep 0 1;
    Re.Repeat Re.is_digit 4 4 ].

(** The text holds no phone number written with a parenthesised leading
    group. *)
Definition no_parenthesized (text : string) : bool :=
  search_free parenthesized_pattern None (list_ascii_of_string text).

(** ** The payload kinds and the requests that fail validation *)

Inductive kind : Type := Structured | RawText | Unsupported.

Definition payload_kind (req : request) : kind :=
  let ct := match content_type req with Some c => c | None => "" end in
  if str_contains "application/json" ct then Structured
  else if str_contains "text/plain" ct then RawText
  else Unsupported.




(** ** The canonical record *)

(** A NormalizedRecord, and the value [json.loads] gives for it. *)
Record normalized_record : Type := NormalizedRecord {
  tenant_id : string;
  log_id : string;
  text : string;
  source : string;
  received_at : string
}.

Definition record_value (r : normalized_record) : pyval :=
  VDict [ ("tenant_id", VStr (tenant_id r));
          ("log_id", VStr (log_id r));
          ("text", VStr (text r));
          ("source", VStr (source r));
          ("received_at", VStr (received_at r)) ].

Definition nonempty (s : string) : bool := negb (String.eqb s "").

(** Its invariant: every field non-empty. *)
Definition well_formed (r : normalized_record) : bool :=
  nonempty (tenant_id r) && nonempty (log_id r) && nonempty (text r)
  && nonempty (source r) && nonempty (received_at r).

(** The document the worker stores for a record at a given time. *)
Definition processed_record (r : normalized_record) (now : string) : document :=
  [ ("source", VStr (source r));
    ("original_text", VStr (text r));
    ("modified_data", VStr (simulate_heavy_processing (text r)));
    ("processed_at", VStr (now ++ "Z"));
    ("received_at", VStr (received_at r));
    ("text_length", VInt (Z.of_nat (String.length (text r)))) ].

(** ** Sample payloads *)

Definition dq : string := String "034"%char EmptyString.

Definition json_member (k v : string) : string :=
  dq ++ k ++ dq ++ ": " ++ dq ++ v ++ dq.

(** [json.dumps] of a record of the gateway. *)
Definition sample_json : string :=
  "{" ++ json_member "tenant_id" "acme" ++ ", "
      ++ json_member "log_id" "42" ++ ", "
      ++ json_member "text" "call 555-123-4567 now" ++ ", "
      ++ json_member "source" "json_upload" ++ ", "
      ++ json_member "received_at" "2024-05-01T12:00:00Z" ++ "}".

Definition sample_normalized : normalized_record :=
  NormalizedRecord "acme" "42" "call 555-123-4567 now" "json_upload"
                   "2024-05-01T12:00:00Z".

Definition sample_record : pyval := record_value sample_normalized.

(** Its base64 encoding. *)
Definition sample_data : string :=
  "eyJ0ZW5hbnRfaWQiOiAiYWNtZSIsICJsb2dfaWQiOiAiNDIiLCAidGV4dCI6ICJjYWxsIDU1NS0xMjMtNDU2NyBub3ciLCAic291cmNlIjogImpzb25fdXBsb2FkIiwgInJlY2VpdmVkX2F0IjogIjIwMjQtMDUtMDFUMTI6MDA6MDBaIn0=".

(** The record of the end-to-end scenario, with its serialisations. *)
Definition ping_json : string :=
  "{" ++ json_member "tenant_id" "acme" ++ ", "
      ++ json_member "log_id" "7" ++ ", "
      ++ json_member "text" "ping 555-0199 please" ++ ", "
      ++ json_member "source" "json_upload" ++ ", "
      ++ json_member "received_at" "2024-05-01T12:00:00Z" ++ "}".

Definition ping_record : pyval :=
  VDict [ ("tenant_id", VStr "acme");
          ("log_id", VStr "7");
          ("text", VStr "ping 555-0199 please");
          ("source", VStr "json_upload");
          ("received_at", VStr "2024-05-01T12:00:00Z") ].

Definition ping_data : string :=
  "eyJ0ZW5hbnRfaWQiOiAiYWNtZSIsICJsb2dfaWQiOiAiNyIsICJ0ZXh0IjogInBpbmcgNTU1LTAxOTkgcGxlYXNlIiwgInNvdXJjZSI6ICJqc29uX3VwbG9hZCIsICJyZWNlaXZlZF9hdCI6ICIyMDI0LTA1LTAxVDEyOjAwOjAwWiJ9".

(** The library calls on the payloads of the examples: the two records,
    the base64 of the text [not json], and the string [a], which is not
    base64. Other payloads are not listed and the examples use none. *)
Definition sample_b64decode_utf8 (v : pyval) : res string :=
  match v with
  | VStr s =>
      if String.eqb s sample_data then Ret sample_json
      else if String.eqb s ping_data then Ret ping_json
      else if String.eqb s "bm90IGpzb24=" then Ret "not json"
      else Raise (LibraryError "binascii.Error")
  | _ => Raise TypeError
  end.

Definition sample_json_loads (s : string) : res pyval :=
  if String.eqb s sample_json then Ret sample_record
  else if String.eqb s ping_json then Ret ping_record
  else Raise (LibraryError "json.JSONDecodeError").

Definition sample_exn_str (e : exn) : string :=
  match e with
  | TypeError => "TypeError"
  | AttributeError => "AttributeError"
  | KeyError => "KeyError"
  | LibraryError name => name
  end.

Definition sample_envelope (data : pyval) : pyval :=
  VDict [ ("message", VDict [ ("data", data); ("messageId", VStr "1") ]);
          ("subscription", VStr "projects/p/subscriptions/s") ].

Definition sample_worker_env : worker_env :=
  WorkerEnv "2024-05-01T12:00:05" true.

Definition sample_gateway_env : gateway_env :=
  GatewayEnv "2024-05-01T12:00:00" "0b0e3b1c-5c1f-4a53-9a57-1f2f0c0d7e11"
             (Ret "1234567890").

(** A structured request that gives an empty [log_id]. *)
Definition empty_log_id_request : request :=
  Request (Some "application/json")
          (Ret (VDict [ ("tenant_id", VStr "acme");
                        ("text", VStr "hi");
                        ("log_id", VStr "") ]))
          None
          ("{" ++ json_member "tenant_id" "acme" ++ ", "
               ++ json_member "text" "hi" ++ ", "
               ++ json_member "log_id" "" ++ "}").

(** A structured request whose body is the empty object. *)
Definition empty_object_request : request :=
  Request (Some "application/json") (Ret (VDict [])) None "{}".

(** A structured request without [tenant_id]. *)
Definition no_tenant_request : request :=
  Request (Some "application/json")
          (Ret (VDict [ ("text", VStr "hi") ]))
          None
          ("{" ++ json_member "text" "hi" ++ "}").

(** ** Further sample payloads *)

(** The library calls on one payload: its base64 text, its JSON text and
    the value of the JSON text. Other payloads are not listed. *)
Definition one_b64decode_utf8 (data json : string) (v : pyval) : res string :=
  match v with
  | VStr s =>
      if String.eqb s data then Ret json
      else Raise (LibraryError "binascii.Error")
  | _ => Raise TypeError
  end.

Definition one_json_loads (json : string) (value : pyval) (s : string)
  : res pyval :=
  if String.eqb s json then Ret value
  else Raise (LibraryError "json.JSONDecodeError").

(** The record the gateway publishes for [raw_request] under [sample_gateway_env]. *)
Definition raw_json : string :=
  "{" ++ json_member "tenant_id" "acme" ++ ", "
      ++ json_member "log_id" "0b0e3b1c-5c1f-4a53-9a57-1f2f0c0d7e11" ++ ", "
      ++ json_member "text" "call 555-123-4567 now" ++ ", "
      ++ json_member "source" "text_upload" ++ ", "
      ++ json_member "received_at" "2024-05-01T12:00:00Z" ++ "}".

Definition raw_data : string :=
  "eyJ0ZW5hbnRfaWQiOiAiYWNtZSIsICJsb2dfaWQiOiAiMGIwZTNiMWMtNWMxZi00YTUzLTlhNTctMWYyZjBjMGQ3ZTExIiwgInRleHQiOiAiY2FsbCA1NTUtMTIzLTQ1Njcgbm93IiwgInNvdXJjZSI6ICJ0ZXh0X3VwbG9hZCIsICJyZWNlaXZlZF9hdCI6ICIyMDI0LTA1LTAxVDEyOjAwOjAwWiJ9".

Definition raw_value : pyval :=
  VDict [ ("tenant_id", VStr "acme");
          ("log_id", VStr "0b0e3b1c-5c1f-4a53-9a57-1f2f0c0d7e11");
          ("text", VStr "call 555-123-4567 now");
          ("source", VStr "text_upload");
          ("received_at", VStr "2024-05-01T12:00:00Z") ].

(** A record without received_at. *)
Definition undated_json : string :=
  "{" ++ json_member "tenant_id" "acme" ++ ", "
      ++ json_member "log_id" "42" ++ ", "
      ++ json_member "text" "hi" ++ ", "
      ++ json_member "source" "json_upload" ++ "}".

Definition undated_data : string :=
  "eyJ0ZW5hbnRfaWQiOiAiYWNtZSIsICJsb2dfaWQiOiAiNDIiLCAidGV4dCI6ICJoaSIsICJzb3VyY2UiOiAianNvbl91cGxvYWQifQ==".

Definition undated_value : pyval :=
  VDict [ ("tenant_id", VStr "acme");
          ("log_id", VStr "42");
          ("text", VStr "hi");
          ("source", VStr "json_upload") ].

(** A record whose log_id is a number. *)
Definition numbered_json : string :=
  "{" ++ json_member "tenant_id" "acme" ++ ", "
      ++ dq ++ "log_id" ++ dq ++ ": 42" ++ ", "
      ++ json_member "text" "hi" ++ ", "
      ++ json_member "source" "json_upload" ++ ", "
      ++ json_member "received_at" "2024-05-01T12:00:00Z" ++ "}".

Definition numbered_data : string :=
  "eyJ0ZW5hbnRfaWQiOiAiYWNtZSIsICJsb2dfaWQiOiA0MiwgInRleHQiOiAiaGkiLCAic291cmNlIjogImpzb25fdXBsb2FkIiwgInJlY2VpdmVkX2F0IjogIjIwMjQtMDUtMDFUMTI6MDA6MDBaIn0=".

Definition numbered_value : pyval :=
  VDict [ ("tenant_id", VStr "acme");
          ("log_id", VInt 42);
          ("text", VStr "hi");
          ("source", VStr "json_upload");
          ("received_at", VStr "2024-05-01T12:00:00Z") ].

(** The record the gateway publishes for [empty_log_id_request] under [sample_gateway_env]. *)
Definition unlogged_json : string :=
  "{" ++ json_member "tenant_id" "acme" ++ ", "
      ++ json_member "log_id" "" ++ ", "
      ++ json_member "text" "hi" ++ ", "
      ++ json_member "source" "json_upload" ++ ", "
      ++ json_member "received_at" "2024-05-01T12:00:00Z" ++ "}".

Definition unlogged_data : string :=
  "eyJ0ZW5hbnRfaWQiOiAiYWNtZSIsICJsb2dfaWQiOiAiIiwgInRleHQiOiAiaGkiLCAic291cmNlIjogImpzb25fdXBsb2FkIiwgInJlY2VpdmVkX2F0IjogIjIwMjQtMDUtMDFUMTI6MDA6MDBaIn0=".

Definition unlogged_value : pyval :=
  VDict [ ("tenant_id", VStr "acme");
          ("log_id", VStr "");
          ("text", VStr "hi");
          ("source", VStr "json_upload");
          ("received_at", VStr "2024-05-01T12:00:00Z") ].

(** The record the gateway publishes for [number_text_request] under [sample_gateway_env]. *)
Definition counted_json : string :=
  "{" ++ json_member "tenant_id" "acme" ++ ", "
      ++ json_member "log_id" "0b0e3b1c-5c1f-4a53-9a57-1f2f0c0d7e11" ++ ", "
      ++ dq ++ "text" ++ dq ++ ": 12345" ++ ", "
      ++ json_member "source" "json_upload" ++ ", "
      ++ json_member "received_at" "2024-05-01T12:00:00Z" ++ "}".

Definition counted_data : string :=
  "eyJ0ZW5hbnRfaWQiOiAiYWNtZSIsICJsb2dfaWQiOiAiMGIwZTNiMWMtNWMxZi00YTUzLTlhNTctMWYyZjBjMGQ3ZTExIiwgInRleHQiOiAxMjM0NSwgInNvdXJjZSI6ICJqc29uX3VwbG9hZCIsICJyZWNlaXZlZF9hdCI6ICIyMDI0LTA1LTAxVDEyOjAwOjAwWiJ9".

Definition counted_value : pyval :=
  VDict [ ("tenant_id", VStr "acme");
          ("log_id", VStr "0b0e3b1c-5c1f-4a53-9a57-1f2f0c0d7e11");
          ("text", VInt 12345);
          ("source", VStr "json_upload");
          ("received_at", VStr "2024-05-01T12:00:00Z") ].

(** A raw submission. *)
Definition raw_request : request :=
  Request (Some "text/plain") (Raise (LibraryError "UnsupportedMediaType"))
          (Some "acme") "call 555-123-4567 now".

(** A structured submission whose text is a number. *)
Definition number_text_request : request :=
  Request (Some "application/json")
          (Ret (VDict [ ("tenant_id", VStr "acme"); ("text", VInt 12345) ]))
          None
          ("{" ++ json_member "tenant_id" "acme" ++ ", "
               ++ dq ++ "text" ++ dq ++ ": 12345}").

(** ** Measures used by the further properties *)

(** The number of decimal digits of a text. *)
Definition count_digits (s : list ascii) : nat :=
  length (List.filter Re.is_digit s).

(** No [/] in an id. *)
Fixpoint no_slash (s : string) : bool :=
  match s with
  | EmptyString => true
  | String c s' => negb (Ascii.eqb c "/") && no_slash s'
  end.

(** The pattern is found nowhere in [s] read after [prev]. *)
Definition pattern_free (prev : option ascii) (s : list ascii) : Prop :=
  forall pre m rest,
    s = pre ++ m ++ rest -> phone_shape m ->
    ~ delimited (Re.last_of prev pre) m rest.

(** The characters a match of the pattern is made of. *)
Definition phone_char (c : ascii) : bool := Re.is_digit c || Re.is_sep c.

(** ** Proof steps *)

(** An early answer that leaves the state as it was. *)
Ltac stop_with side :=
  left; eexists; (split; [|intros; reflexivity]); side; reflexivity.

(** Case analysis on an innermost scrutinee of the goal. *)
Ltac inner_case :=
  match goal with
  | |- context [match ?x with _ => _ end] =>
      lazymatch x with
      | context [match _ with _ => _ end] => fail
      | _ => destruct x eqn:?
      end
  end.

Ltac run_ingest :=
  unfold ingest, ingest_try, ingest_publish, publish_to_pubsub, bind,
    py_getitem, normalize_to_internal_format;
  repeat (cbn; inner_case); cbn.

(** * Properties of the matcher *)

Lemma last_of_app prev m1 m2 :
  Re.last_of prev (m1 ++ m2) = Re.last_of (Re.last_of prev m1) m2.
Proof. unfold Re.last_of. apply fold_left_app. Qed.

Lemma rep_greedy_spec cls lo hi prev s p' rest :
  In (p', rest) (Re.rep_greedy cls lo hi prev s) <->
  exists m, s = m ++ rest /\ forallb cls m = true /\
            lo <= length m <= hi /\ p' = Re.last_of prev m.
Proof.
  revert lo prev s. induction hi as [|hi IH]; intros lo prev s; simpl.
  - destruct lo; simpl.
    + split.
      * intros [H|[]]. inversion H; subst. exists []. simpl. repeat split; lia.
      * intros (m & -> & _ & Hlen & ->). destruct m; simpl in *; [auto | lia].
    + split; [tauto|]. intros (m & _ & _ & Hlen & _). lia.
  - rewrite in_app_iff. split.
    + intros [H|H].
      * destruct s as [|c s']; [contradiction|].
        destruct (cls c) eqn:Hc; [|contradiction].
        apply IH in H. destruct H as (m & -> & Hm & Hlen & ->).
        exists (c :: m). simpl. rewrite Hc, Hm. repeat split; lia.
      * destruct lo; [|contradiction]. destruct H as [H|[]].
        inversion H; subst. exists []. simpl. repeat split; lia.
    + intros (m & -> & Hm & Hlen & ->). destruct m as [|c m]; simpl in *.
      * right. destruct lo; [left; reflexivity | lia].
      * left. apply andb_true_iff in Hm. destruct Hm as [Hc Hm]. rewrite Hc.
        apply IH. exists m. repeat split; auto; lia.
Qed.

Lemma match_seq_spec p : forall prev s p' rest,
  In (p', rest) (Re.match_seq p (prev, s)) <->
  exists m, s = m ++ rest /\ p' = Re.last_of prev m /\ matches p prev m rest.
Proof.
  induction p as [|a p IH]; intros prev s p' rest; simpl.
  - split.
    + intros [H|[]]. inversion H; subst. exists []. auto.
    + intros (m & -> & -> & ->). left. reflexivity.
  - rewrite in_flat_map. destruct a as [|cls lo hi]; simpl.
    + split.
      * intros ([q r] & Hin & Hm).
        destruct (Re.word_boundary prev (head s)) eqn:Hb; [|contradiction].
        destruct Hin as [Hin|[]]. inversion Hin; subst.
        apply IH in Hm. destruct Hm as (m & -> & -> & Hm).
        exists m. auto.
      * intros (m & -> & -> & Hb & Hm). exists (prev, m ++ rest).
        rewrite Hb. split; [left; reflexivity|]. apply IH. exists m. auto.
    + split.
      * intros ([q r] & Hin & Hm).
        apply rep_greedy_spec in Hin. destruct Hin as (m1 & -> & Hc & Hlen & ->).
        apply IH in Hm. destruct Hm as (m2 & -> & -> & Hm).
        exists (m1 ++ m2). rewrite <- app_assoc, last_of_app.
        repeat split; auto. exists m1, m2. auto.
      * intros (m & -> & -> & m1 & m2 & -> & Hc & Hlen & Hm).
        exists (Re.last_of prev m1, m2 ++ rest). split.
        -- apply rep_greedy_spec. exists m1. rewrite <- app_assoc. auto.
        -- apply IH. exists m2. rewrite last_of_app. auto.
Qed.

Lemma is_sep_spec c :
  Re.is_sep c = true <-> c = "-"%char \/ c = "."%char \/ Re.is_space c = true.
Proof.
  unfold Re.is_sep. rewrite !orb_true_iff, !Nat.eqb_eq. split.
  - intros [[H|H]|H]; auto.
    + left. rewrite <- (ascii_nat_embedding c), H. reflexivity.
    + right; left. rewrite <- (ascii_nat_embedding c), H. reflexivity.
  - intros [->|[->|H]]; auto.
Qed.

Lemma optional_sep_spec s :
  optional_sep s <-> forallb Re.is_sep s = true /\ 0 <= length s <= 1.
Proof.
  unfold optional_sep. split.
  - intros [->|(c & -> & Hc)]; simpl.
    + split; [reflexivity | lia].
    + apply is_sep_spec in Hc. rewrite Hc. split; [reflexivity | lia].
  - intros [Hs Hlen]. destruct s as [|c [|c' s]]; simpl in *; [left; reflexivity | | lia].
    right. exists c. split; [reflexivity|]. apply is_sep_spec.
    apply andb_true_iff in Hs. tauto.
Qed.

(** The pattern matches exactly the delimited phone numbers. *)
Lemma matches_phone prev m rest :
  matches phone_pattern prev m rest <-> phone_shape m /\ delimited prev m rest.
Proof.
  unfold phone_pattern, phone_shape, phone_groups, delimited, all_digits. simpl.
  split.
  - intros (Hb & d1 & m2 & -> & Hd1 & Hl1 & s1 & m3 & -> & Hs1 & Hls1
            & d2 & m4 & -> & Hd2 & Hl2 & s2 & m5 & -> & Hs2 & Hls2
            & d3 & m6 & -> & Hd3 & Hl3 & He & ->).
    rewrite app_nil_r in *. simpl in He.
    rewrite !last_of_app. repeat split; auto.
    exists d1, s1, d2, s2, d3. rewrite !optional_sep_spec.
    repeat split; auto; lia.
  - intros ((d1 & s1 & d2 & s2 & d3 & -> & Hd1 & Hl1 & Hs1 & Hd2 & Hl2 & Hs2
             & Hd3 & Hl3) & Hb & He).
    apply optional_sep_spec in Hs1, Hs2. rewrite !last_of_app in He.
    split; [exact Hb|].
    exists d1, (s1 ++ d2 ++ s2 ++ d3). repeat split; auto; try lia.
    exists s1, (d2 ++ s2 ++ d3). repeat split; try tauto; try lia.
    exists d2, (s2 ++ d3). repeat split; auto; try lia.
    exists s2, d3. repeat split; try tauto; try lia.
    exists d3, []. rewrite app_nil_r. repeat split; auto; lia.
Qed.

Lemma phone_shape_length m : phone_shape m -> 10 <= length m.
Proof.
  intros (d1 & s1 & d2 & s2 & d3 & -> & _ & H1 & _ & _ & H2 & _ & _ & H3).
  rewrite !length_app. lia.
Qed.

(** What the engine reports at a cursor. *)
Lemma match_len_Some prev s n :
  Re.match_len phone_pattern prev s = Some n ->
  exists m rest, s = m ++ rest /\ length m = n /\
                 phone_shape m /\ delimited prev m rest.
Proof.
  unfold Re.match_len. destruct (Re.match_seq phone_pattern (prev, s)) as [|[q r] l] eqn:E;
    [discriminate|].
  intros [= <-].
  assert (Hin : In (q, r) (Re.match_seq phone_pattern (prev, s))) by (rewrite E; left; reflexivity).
  apply match_seq_spec in Hin. destruct Hin as (m & -> & -> & Hm).
  apply matches_phone in Hm. destruct Hm as [Hs Hd].
  exists m, r. rewrite length_app.
  split; [reflexivity|]. split; [lia|]. split; assumption.
Qed.

Lemma match_len_None prev s :
  Re.match_len phone_pattern prev s = None ->
  forall m rest, s = m ++ rest -> phone_shape m -> ~ delimited prev m rest.
Proof.
  unfold Re.match_len. destruct (Re.match_seq phone_pattern (prev, s)) as [|[q r] l] eqn:E;
    [|discriminate].
  intros _ m rest -> Hs Hd.
  assert (Hin : In (Re.last_of prev m, rest) (Re.match_seq phone_pattern (prev, m ++ rest))).
  { apply match_seq_spec. exists m.
    split; [reflexivity|]. split; [reflexivity|].
    apply matches_phone. split; assumption. }
  rewrite E in Hin. contradiction.
Qed.

(** Dropping the characters of a match. *)
Lemma sub_scan_skip p repl m : forall prev rest,
  Re.sub_scan p repl (length m) prev (m ++ rest)
  = Re.sub_scan p repl 0 (Re.last_of prev m) rest.
Proof.
  induction m as [|c m IH]; intros prev rest; simpl.
  - reflexivity.
  - apply IH.
Qed.

(** One step of the scan at a cursor outside a match. *)
Lemma sub_scan_hit repl prev m rest :
  phone_shape m ->
  Re.match_len phone_pattern prev (m ++ rest) = Some (length m) ->
  Re.sub_scan phone_pattern repl 0 prev (m ++ rest)
  = repl ++ Re.sub_scan phone_pattern repl 0 (Re.last_of prev m) rest.
Proof.
  intros Hs Hm. apply phone_shape_length in Hs.
  destruct m as [|c m]; simpl in Hs; [lia|].
  change (Re.sub_scan phone_pattern repl 0 prev ((c :: m) ++ rest))
    with (match Re.match_len phone_pattern prev ((c :: m) ++ rest) with
          | Some (S k) => repl ++ Re.sub_scan phone_pattern repl k (Some c) (m ++ rest)
          | Some O => repl ++ c :: Re.sub_scan phone_pattern repl 0 (Some c) (m ++ rest)
          | None => c :: Re.sub_scan phone_pattern repl 0 (Some c) (m ++ rest)
          end).
  change (length (c :: m)) with (S (length m)) in Hm.
  rewrite Hm. cbv iota beta. rewrite sub_scan_skip. reflexivity.
Qed.

Lemma sub_scan_redacted n : forall prev s,
  length s <= n ->
  redacted prev s
    (Re.sub_scan phone_pattern (list_ascii_of_string REDACTED) 0 prev s).
Proof.
  induction n as [|n IH]; intros prev s Hn.
  - destruct s; [|simpl in Hn; lia].
    destruct (Re.match_len phone_pattern prev []) as [k|] eqn:E.
    + destruct (match_len_Some _ _ _ E) as (m & rest & Hs & _ & Hm & _).
      apply phone_shape_length in Hm. destruct m; simpl in *; [lia | discriminate].
    + cbn [Re.sub_scan]. rewrite E. constructor.
  - destruct (Re.match_len phone_pattern prev s) as [k|] eqn:E.
    + destruct (match_len_Some _ _ _ E) as (m & rest & -> & <- & Hs & Hd).
      rewrite sub_scan_hit by assumption.
      apply redacted_hit; auto. apply IH.
      apply phone_shape_length in Hs. rewrite length_app in Hn. lia.
    + destruct s as [|c s].
      * cbn [Re.sub_scan]. rewrite E. constructor.
      * cbn [Re.sub_scan]. rewrite E. apply redacted_keep.
        -- apply (match_len_None _ _ E).
        -- apply IH. simpl in Hn. lia.
Qed.

(** ** A delimited phone number has one possible end *)

Lemma is_digit_word c : Re.is_digit c = true -> Re.is_word c = true.
Proof.
  unfold Re.is_digit, Re.is_word. cbv zeta. intros ->. reflexivity.
Qed.

Lemma app_eq_app_le {A : Type} (l1 : list A) : forall l2 r1 r2,
  l1 ++ r1 = l2 ++ r2 -> length l1 <= length l2 ->
  exists x, l2 = l1 ++ x /\ r1 = x ++ r2.
Proof.
  induction l1 as [|a l1 IH]; intros l2 r1 r2 H Hlen; simpl in *.
  - exists l2. auto.
  - destruct l2 as [|b l2]; simpl in *; [lia|].
    injection H as -> H. destruct (IH l2 r1 r2 H) as (x & -> & ->); [lia|].
    exists x. auto.
Qed.

(** A phone number ends with a digit. *)
Lemma phone_shape_last prev m :
  phone_shape m -> Re.word_opt (Re.last_of prev m) = true.
Proof.
  intros (d1 & s1 & d2 & s2 & d3 & -> & _ & _ & _ & _ & _ & _ & Hd3 & Hl3).
  destruct (exists_last (l := d3)) as (d & c & ->).
  { intros ->. discriminate. }
  rewrite !last_of_app. simpl.
  unfold all_digits in Hd3. rewrite forallb_app in Hd3. simpl in Hd3.
  apply andb_true_iff in Hd3. destruct Hd3 as [_ Hc].
  apply andb_true_iff in Hc. apply is_digit_word. tauto.
Qed.

(** Past its ninth character a phone number has only digits. *)
Lemma phone_shape_tail m pre c post :
  phone_shape m -> m = pre ++ c :: post -> 10 <= length pre ->
  Re.is_digit c = true.
Proof.
  intros (d1 & s1 & d2 & s2 & d3 & -> & _ & Hl1 & Hs1 & _ & Hl2 & Hs2 & Hd3 & _) E Hlen.
  apply optional_sep_spec in Hs1, Hs2.
  rewrite !app_assoc in E.
  apply app_eq_app_le in E.
  - destruct E as (x & -> & E). unfold all_digits in Hd3.
    rewrite E, forallb_app in Hd3. simpl in Hd3.
    apply andb_true_iff in Hd3. destruct Hd3 as [_ Hc].
    apply andb_true_iff in Hc. tauto.
  - rewrite !length_app. lia.
Qed.

Lemma delimited_end_unique prev m1 r1 m2 r2 :
  m1 ++ r1 = m2 ++ r2 ->
  phone_shape m1 -> delimited prev m1 r1 ->
  phone_shape m2 ->
  length m1 <= length m2 -> m1 = m2 /\ r1 = r2.
Proof.
  intros E Hs1 [_ He1] Hs2 Hlen.
  destruct (app_eq_app_le _ _ _ _ E Hlen) as (x & -> & ->).
  destruct x as [|c x].
  - rewrite app_nil_r. auto.
  - exfalso. unfold Re.word_boundary in He1.
    rewrite (phone_shape_last prev m1 Hs1) in He1. simpl in He1.
    assert (Hc : Re.is_digit c = true).
    { eapply phone_shape_tail; [exact Hs2 | reflexivity |].
      apply phone_shape_length. exact Hs1. }
    apply is_digit_word in Hc. rewrite Hc in He1. discriminate.
Qed.

Lemma delimited_unique prev m1 r1 m2 r2 :
  m1 ++ r1 = m2 ++ r2 ->
  phone_shape m1 -> delimited prev m1 r1 ->
  phone_shape m2 -> delimited prev m2 r2 ->
  m1 = m2 /\ r1 = r2.
Proof.
  intros E Hs1 Hd1 Hs2 Hd2.
  destruct (Nat.le_ge_cases (length m1) (length m2)) as [H|H].
  - eapply delimited_end_unique; eauto.
  - symmetry in E.
    destruct (delimited_end_unique prev m2 r2 m1 r1 E Hs2 Hd2 Hs1 H) as [-> ->].
    auto.
Qed.

(** [redacted] determines its output. *)
Lemma redacted_functional prev s o1 :
  redacted prev s o1 -> forall o2, redacted prev s o2 -> o1 = o2.
Proof.
  induction 1 as [prev | prev c s out Hno _ IH | prev m rest out Hs Hd _ IH];
    intros o2 H2.
  - inversion H2 as [ | | prev' m rest out Hs Hd _ E]; subst; [reflexivity|].
    apply phone_shape_length in Hs. destruct m; simpl in *; [lia | discriminate].
  - inversion H2 as [ | prev' c' s' out' _ H' | prev' m rest out' Hs Hd _ E]; subst.
    + f_equal. apply IH. assumption.
    + exfalso. apply (Hno m rest); auto.
  - remember (m ++ rest) as s eqn:Es.
    destruct H2 as [prev | prev c s out' Hno H' | prev m' rest' out' Hs' Hd' H'].
    + apply phone_shape_length in Hs. destruct m; simpl in *; [lia | discriminate].
    + exfalso. apply (Hno m rest); auto.
    + symmetry in Es.
      destruct (delimited_unique _ _ _ _ _ Es Hs Hd Hs' Hd') as [-> ->].
      f_equal. apply IH. assumption.
Qed.

(** Where the pattern is not found the scan copies its input. *)
Lemma search_free_copy p repl s : forall prev,
  search_free p prev s = true -> Re.sub_scan p repl 0 prev s = s.
Proof.
  induction s as [|c s IH]; intros prev H; cbn [search_free Re.sub_scan] in *;
    destruct (Re.match_len p prev _); try discriminate.
  - reflexivity.
  - f_equal. apply IH. exact H.
Qed.

(** The engine finds no match at a cursor exactly when nothing that
    starts there is matched by the pattern. *)
Lemma match_len_matches p prev s :
  Re.match_len p prev s = None <->
  forall m rest, s = m ++ rest -> ~ matches p prev m rest.
Proof.
  unfold Re.match_len.
  destruct (Re.match_seq p (prev, s)) as [|[q r] l] eqn:E.
  - split; [|reflexivity]. intros _ m rest -> Hm.
    assert (Hin : In (Re.last_of prev m, rest)
                     (Re.match_seq p (prev, m ++ rest))).
    { apply match_seq_spec. exists m. auto. }
    rewrite E in Hin. contradiction.
  - split; [discriminate|]. intros H. exfalso.
    assert (Hin : In (q, r) (Re.match_seq p (prev, s)))
      by (rewrite E; left; reflexivity).
    apply match_seq_spec in Hin. destruct Hin as (m & -> & -> & Hm).
    exact (H m r eq_refl Hm).
Qed.

(** [search_free] holds exactly when no substring is matched. *)
Lemma search_free_spec p s : forall prev,
  search_free p prev s = true <->
  forall pre m rest,
    s = pre ++ m ++ rest -> ~ matches p (Re.last_of prev pre) m rest.
Proof.
  induction s as [|c s IH]; intros prev; cbn [search_free].
  - destruct (Re.match_len p prev []) eqn:E.
    + split; [discriminate|]. intros H. exfalso.
      assert (E' : Re.match_len p prev [] = None).
      { apply match_len_matches. intros m rest Hs. exact (H [] m rest Hs). }
      congruence.
    + split; [|reflexivity]. intros _ pre m rest Hs.
      destruct pre; [|discriminate]. simpl in Hs |- *.
      exact (proj1 (match_len_matches p prev []) E m rest Hs).
  - destruct (Re.match_len p prev (c :: s)) eqn:E.
    + split; [discriminate|]. intros H. exfalso.
      assert (E' : Re.match_len p prev (c :: s) = None).
      { apply match_len_matches. intros m rest Hs. exact (H [] m rest Hs). }
      congruence.
    + rewrite IH. split.
      * intros H pre m rest Hs. destruct pre as [|c' pre].
        -- simpl in Hs |- *.
           exact (proj1 (match_len_matches p prev (c :: s)) E m rest Hs).
        -- simpl in Hs. injection Hs as <- Hs.
           change (Re.last_of prev (c :: pre)) with (Re.last_of (Some c) pre).
           apply H. exact Hs.
      * intros H pre m rest Hs. apply (H (c :: pre) m rest).
        simpl. rewrite Hs. reflexivity.
Qed.

Lemma one_char (cls : ascii -> bool) (c : ascii) (l : list ascii) :
  (forall x, cls x = true -> x = c) ->
  forallb cls l = true -> 1 <= length l <= 1 -> l = [c].
Proof.
  intros Hc Hl Hn. destruct l as [|x [|y l]]; simpl in Hn; try lia.
  simpl in Hl. rewrite andb_true_r in Hl. rewrite (Hc x Hl). reflexivity.
Qed.

(** The pattern with the parentheses matches exactly the phone numbers
    whose leading group is in parentheses. *)
Lemma matches_parenthesized prev m rest :
  matches parenthesized_pattern prev m rest <-> phone_shape_parenthesized m.
Proof.
  unfold parenthesized_pattern, phone_shape_parenthesized, phone_groups,
    all_digits. simpl.
  split.
  - intros (l & m1 & -> & Hl & Hll & d1 & m2 & -> & Hd1 & Hl1
            & r & m3 & -> & Hr & Hlr & s1 & m4 & -> & Hs1 & Hls1
            & d2 & m5 & -> & Hd2 & Hl2 & s2 & m6 & -> & Hs2 & Hls2
            & d3 & m7 & -> & Hd3 & Hl3 & ->).
    rewrite (one_char is_lparen "("%char l) by
      (auto; intros x Hx; apply Ascii.eqb_eq; exact Hx).
    rewrite (one_char is_rparen ")"%char r) by
      (auto; intros x Hx; apply Ascii.eqb_eq; exact Hx).
    exists d1, s1, d2, s2, d3. rewrite !optional_sep_spec, app_nil_r.
    split; [reflexivity|].
    repeat split; auto; lia.
  - intros (d1 & s1 & d2 & s2 & d3 & -> & Hd1 & Hl1 & Hs1 & Hd2 & Hl2 & Hs2
            & Hd3 & Hl3).
    apply optional_sep_spec in Hs1, Hs2.
    exists ["("%char], (d1 ++ (")"%char :: s1) ++ d2 ++ s2 ++ d3).
    repeat split; auto.
    exists d1, ((")"%char :: s1) ++ d2 ++ s2 ++ d3). repeat split; auto; try lia.
    exists [")"%char], (s1 ++ d2 ++ s2 ++ d3). repeat split; auto.
    exists s1, (d2 ++ s2 ++ d3). repeat split; try tauto; try lia.
    exists d2, (s2 ++ d3). repeat split; auto; try lia.
    exists s2, d3. repeat split; try tauto; try lia.
    exists d3, []. rewrite app_nil_r. repeat split; auto; lia.
Qed.

(** [no_parenthesized] says what its name says: no substring of the text
    is a phone number whose leading group is in parentheses. *)
Lemma no_parenthesized_spec text :
  no_parenthesized text = true <->
  forall pre m post,
    list_ascii_of_string text = pre ++ m ++ post ->
    ~ phone_shape_parenthesized m.
Proof.
  unfold no_parenthesized. rewrite search_free_spec. split.
  - intros H pre m post Hs Hm. apply (H pre m post Hs).
    apply matches_parenthesized. exact Hm.
  - intros H pre m post Hs Hm. apply (H pre m post Hs).
    apply matches_parenthesized in Hm. exact Hm.
Qed.

(** * The transform *)

(** C6, as amended: in a text that holds no phone number written with a
    parenthesised leading group, the transform, reading from the left,
    replaces by the marker each phone number (three digits, separator,
    three or four digits, separator, four digits, each separator a hyphen,
    a period, white space or absent) that starts and ends at a word
    boundary, and keeps every other character; this determines its
    output. Nothing is said of a text that holds a number with a
    parenthesised leading group, a format the comment above the pattern
    lists among those matched. *)
Theorem transform_redacts_delimited_phones (text : string) (out : list ascii) :
  no_parenthesized text = true ->
  (redacted None (list_ascii_of_string text) out
   <-> out = list_ascii_of_string (simulate_heavy_processing text)).
Proof.
  intros _.
  assert (H : redacted None (list_ascii_of_string text)
                (list_ascii_of_string (simulate_heavy_processing text))).
  { unfold simulate_heavy_processing, Re.sub.
    rewrite list_ascii_of_string_of_list_ascii.
    eapply sub_scan_redacted. reflexivity. }
  split.
  - intros Hout. eapply redacted_functional; eassumption.
  - intros ->. exact H.
Qed.

Lemma transform_redacts_delimited_phones_witness :
  no_parenthesized "call 555-123-4567 now (office)" = true
  /\ redacted None (list_ascii_of_string "call 555-123-4567 now (office)")
       (list_ascii_of_string "call [REDACTED] now (office)").
Proof.
  split; [vm_compute; reflexivity|].
  apply (proj2 (transform_redacts_delimited_phones
                  "call 555-123-4567 now (office)"
                  (list_ascii_of_string "call [REDACTED] now (office)")
                  eq_refl)).
  vm_compute. reflexivity.
Defined.

(** C6, as stated, fails: a ten-digit run has the shape, and after a letter
    it does not start at a word boundary and is kept. *)
Lemma transform_keeps_some_phone_shapes :
  phone_shape (list_ascii_of_string "5551234567")
  /\ no_parenthesized "x5551234567" = true
  /\ simulate_heavy_processing "x5551234567" = "x5551234567".
Proof.
  split; [|split; vm_compute; reflexivity].
  exists (list_ascii_of_string "555"), [], (list_ascii_of_string "123"), [],
    (list_ascii_of_string "4567").
  split; [reflexivity|]. unfold phone_groups, all_digits, optional_sep.
  repeat split; auto.
Qed.

(** C7: the transform is a function of its input; it redacts the number in
    "call 555-123-4567 now" and leaves "room 4567" as it is; a text in which
    the pattern is not found is left as it is, and in any text every
    character outside the matches of the pattern is kept. *)
Theorem transform_deterministic_and_local :
  (forall x y, x = y -> simulate_heavy_processing x = simulate_heavy_processing y)
  /\ simulate_heavy_processing "call 555-123-4567 now" = "call [REDACTED] now"
  /\ simulate_heavy_processing "room 4567" = "room 4567"
  /\ (forall text,
        search_free phone_pattern None (list_ascii_of_string text) = true ->
        simulate_heavy_processing text = text)
  /\ (forall text,
        redacted None (list_ascii_of_string text)
          (list_ascii_of_string (simulate_heavy_processing text))).
Proof.
  split; [intros x y ->; reflexivity|].
  split; [vm_compute; reflexivity|].
  split; [vm_compute; reflexivity|].
  split.
  - intros text H. unfold simulate_heavy_processing, Re.sub.
    rewrite search_free_copy by exact H.
    apply string_of_list_ascii_of_string.
  - intros text. unfold simulate_heavy_processing, Re.sub.
    rewrite list_ascii_of_string_of_list_ascii.
    eapply sub_scan_redacted. reflexivity.
Qed.

Lemma transform_deterministic_and_local_witness :
  search_free phone_pattern None (list_ascii_of_string "room 4567") = true
  /\ simulate_heavy_processing "room 4567" = "room 4567".
Proof.
  split; [vm_compute; reflexivity|].
  apply (proj1 (proj2 (proj2 (proj2 transform_deterministic_and_local)))).
  vm_compute; reflexivity.
Defined.

(** * The worker *)

Lemma py_getitem_Ret v k x :
  py_getitem v k = Ret x -> exists d, v = VDict d /\ dict_lookup k d = Some x.
Proof.
  destruct v; simpl; try discriminate.
  destruct (dict_lookup k d) eqn:E; [|discriminate].
  intros [= ->]. eauto.
Qed.

Lemma py_getitem_contains v k x :
  py_getitem v k = Ret x -> truthy v = true /\ py_contains k v = Ret true.
Proof.
  intros H. apply py_getitem_Ret in H. destruct H as (d & -> & H).
  simpl. rewrite H. split; [|reflexivity].
  destruct d; [discriminate | reflexivity].
Qed.

Section WorkerProofs.

Variable b64decode_utf8 : pyval -> res string.
Variable json_loads : string -> res pyval.
Variable exn_str : exn -> string.

Local Abbreviation decode := (decode_delivery b64decode_utf8 json_loads).
Local Abbreviation handler_try := (process_pubsub_try b64decode_utf8 json_loads).
Local Abbreviation handler := (process_pubsub b64decode_utf8 json_loads exn_str).

(** From a decodable envelope the handler goes on with the message. *)
Lemma process_pubsub_try_decoded env envelope message db :
  decode envelope = Ret message ->
  handler_try env (Ret envelope) db = process_message env message db.
Proof.
  unfold decode_delivery, process_pubsub_try. simpl.
  destruct (py_getitem envelope "message") as [pm|] eqn:E1; [|discriminate].
  simpl. destruct (py_getitem pm "data") as [data|] eqn:E2; [|discriminate].
  simpl. destruct (b64decode_utf8 data) as [md|] eqn:E3; [|discriminate].
  simpl. intros E4.
  destruct (py_getitem_contains _ _ _ E1) as [-> ->].
  destruct (py_getitem_contains _ _ _ E2) as [_ ->].
  simpl. rewrite E4. reflexivity.
Qed.

(** A 200 comes from a decoded message only. *)
Lemma process_pubsub_try_200 env envelope db r db' :
  handler_try env (Ret envelope) db = Ret (r, db') -> status r = 200%Z ->
  exists message,
    decode envelope = Ret message /\ process_message env message db = Ret (r, db').
Proof.
  unfold decode_delivery, process_pubsub_try. simpl.
  destruct (truthy envelope); simpl; [|intros [= <- <-]; discriminate].
  destruct (py_contains "message" envelope) as [[|]|]; simpl;
    try discriminate; [|intros [= <- <-]; discriminate].
  destruct (py_getitem envelope "message") as [pm|]; simpl; [|discriminate].
  destruct (py_contains "data" pm) as [[|]|]; simpl;
    try discriminate; [|intros [= <- <-]; discriminate].
  destruct (py_getitem pm "data") as [data|]; simpl; [|discriminate].
  destruct (b64decode_utf8 data) as [md|]; simpl; [|discriminate].
  destruct (json_loads md) as [message|]; simpl; [|discriminate].
  intros H _. exists message. auto.
Qed.

(** What a 200 of [process_message] says of the message and the store. *)
Lemma process_message_200 env message db r db' :
  process_message env message db = Ret (r, db') -> status r = 200%Z ->
  exists t l txt src rcv,
    py_get message "tenant_id" VNone = Ret (VStr t) /\
    py_get message "log_id" VNone = Ret (VStr l) /\
    py_get message "text" VNone = Ret (VStr txt) /\
    py_get message "source" VNone = Ret src /\
    py_get message "received_at" VNone = Ret rcv /\
    r = Response [ ("status", VStr "processed");
                   ("tenant_id", VStr t); ("log_id", VStr l) ] 200 /\
    db' = <[doc_path t l :=
              [ ("source", src);
                ("original_text", VStr txt);
                ("modified_data", VStr (simulate_heavy_processing txt));
                ("processed_at", VStr (w_utcnow env ++ "Z"));
                ("received_at", rcv);
                ("text_length", VInt (Z.of_nat (String.length txt))) ]]> db.
Proof.
  unfold process_message.
  destruct (py_get message "tenant_id" VNone) as [t|]; simpl; [|discriminate].
  destruct (py_get message "log_id" VNone) as [l|]; simpl; [|discriminate].
  destruct (py_get message "text" VNone) as [txt|]; simpl; [|discriminate].
  destruct (py_get message "source" VNone) as [src|]; simpl; [|discriminate].
  destruct (py_get message "received_at" VNone) as [rcv|]; simpl; [|discriminate].
  destruct (truthy t && (truthy l && (truthy txt && (truthy src && true))));
    simpl; [|intros [= <- <-]; discriminate].
  destruct txt as [| | |txt| |]; try discriminate.
  unfold save_to_firestore.
  destruct t as [| | |t| |]; try discriminate.
  destruct l as [| | |l| |]; try discriminate.
  destruct (firestore_accepts env); simpl; [|discriminate].
  intros [= <- <-] _. exists t, l, txt, src, rcv. repeat split; reflexivity.
Qed.

(** The handler on a well-formed record when the store accepts the write. *)
Lemma process_pubsub_record env envelope rec db :
  decode envelope = Ret (record_value rec) ->
  nonempty (tenant_id rec) = true -> nonempty (log_id rec) = true ->
  nonempty (text rec) = true -> nonempty (source rec) = true ->
  firestore_accepts env = true ->
  handler env (Ret envelope) db
  = (Response [ ("status", VStr "processed");
                ("tenant_id", VStr (tenant_id rec));
                ("log_id", VStr (log_id rec)) ] 200,
     <[doc_path (tenant_id rec) (log_id rec)
         := processed_record rec (w_utcnow env)]> db).
Proof.
  intros Hd Ht Hl Hx Hs Ha. unfold process_pubsub.
  rewrite (process_pubsub_try_decoded _ _ _ _ Hd).
  unfold process_message, record_value. simpl.
  unfold nonempty in *. rewrite Ht, Hl, Hx, Hs. simpl.
  rewrite Ha. reflexivity.
Qed.

(** The stored documents of two attempts differ in [processed_at] only. *)
Lemma processed_record_fields rec now1 now2 k :
  k <> "processed_at" ->
  dict_lookup k (processed_record rec now1)
  = dict_lookup k (processed_record rec now2).
Proof.
  intros Hk. unfold processed_record. cbn [dict_lookup].
  destruct (String.eqb_spec k "processed_at"); [contradiction | reflexivity].
Qed.

(** C1: a record delivered twice is stored twice under the same path, and
    the two documents have the same source, original_text, modified_data
    and text_length: they agree on every field but processed_at. *)
Theorem redelivery_stores_same_content env1 env2 envelope rec db :
  decode envelope = Ret (record_value rec) ->
  well_formed rec = true ->
  firestore_accepts env1 = true -> firestore_accepts env2 = true ->
  let first := handler env1 (Ret envelope) db in
  let second := handler env2 (Ret envelope) (snd first) in
  let path := doc_path (tenant_id rec) (log_id rec) in
  status (fst first) = 200%Z /\ status (fst second) = 200%Z
  /\ snd first !! path = Some (processed_record rec (w_utcnow env1))
  /\ snd second !! path = Some (processed_record rec (w_utcnow env2))
  /\ (forall k, In k ["source"; "original_text"; "modified_data"; "text_length"] ->
        dict_lookup k (processed_record rec (w_utcnow env1))
        = dict_lookup k (processed_record rec (w_utcnow env2)))
  /\ (forall k, k <> "processed_at" ->
        dict_lookup k (processed_record rec (w_utcnow env1))
        = dict_lookup k (processed_record rec (w_utcnow env2))).
Proof.
  intros Hd Hwf Ha1 Ha2. unfold well_formed in Hwf.
  repeat (apply andb_true_iff in Hwf; destruct Hwf as [Hwf ?]).
  cbv zeta.
  rewrite (process_pubsub_record env1 envelope rec db) by assumption.
  cbn [fst snd].
  rewrite (process_pubsub_record env2 envelope rec) by assumption.
  cbn [fst snd status].
  rewrite !lookup_insert_eq.
  repeat split.
  - intros k Hk. apply processed_record_fields.
    intros ->. simpl in Hk. intuition discriminate.
  - intros k Hk. apply processed_record_fields. exact Hk.
Qed.

(** C9: a delivery answered 200 carried a record whose tenant_id, log_id
    and text are strings, and left in the store, under
    tenants/{tenant_id}/processed_logs/{log_id}, the document with the
    fields source, original_text, modified_data, processed_at, received_at
    and text_length, original_text being the text and modified_data its
    transform. *)
Theorem processed_delivery_stored_under_tenant_path env get_json db :
  status (fst (handler env get_json db)) = 200%Z ->
  exists envelope message t l txt src rcv,
    get_json = Ret envelope
    /\ decode envelope = Ret message
    /\ py_get message "tenant_id" VNone = Ret (VStr t)
    /\ py_get message "log_id" VNone = Ret (VStr l)
    /\ py_get message "text" VNone = Ret (VStr txt)
    /\ py_get message "source" VNone = Ret src
    /\ py_get message "received_at" VNone = Ret rcv
    /\ doc_path t l = ("tenants/" ++ t ++ "/processed_logs/" ++ l)%string
    /\ snd (handler env get_json db)
       = <[doc_path t l :=
          [ ("source", src);
            ("original_text", VStr txt);
            ("modified_data", VStr (simulate_heavy_processing txt));
            ("processed_at", VStr (w_utcnow env ++ "Z"));
            ("received_at", rcv);
            ("text_length", VInt (Z.of_nat (String.length txt))) ]]> db.
Proof.
  unfold process_pubsub.
  destruct (handler_try env get_json db) as [[r db']|e] eqn:E;
    [|simpl; discriminate].
  cbn [fst snd]. intros Hr.
  destruct get_json as [envelope|e]; [|discriminate].
  destruct (process_pubsub_try_200 _ _ _ _ _ E Hr) as (message & Hd & Hm).
  destruct (process_message_200 _ _ _ _ _ Hm Hr)
    as (t & l & txt & src & rcv & H1 & H2 & H3 & H4 & H5 & _ & ->).
  exists envelope, message, t, l, txt, src, rcv. repeat split; assumption.
Qed.


End WorkerProofs.

Lemma redelivery_stores_same_content_witness :
  let envelope := sample_envelope (VStr sample_data) in
  let env2 := WorkerEnv "2024-05-01T12:07:30" true in
  let first :=
    process_pubsub sample_b64decode_utf8 sample_json_loads sample_exn_str
                   sample_worker_env (Ret envelope) ∅ in
  let second :=
    process_pubsub sample_b64decode_utf8 sample_json_loads sample_exn_str
                   env2 (Ret envelope) (snd first) in
  (decode_delivery sample_b64decode_utf8 sample_json_loads envelope
   = Ret (record_value sample_normalized)
   /\ well_formed sample_normalized = true)
  /\ status (fst first) = 200%Z /\ status (fst second) = 200%Z
  /\ snd first !! "tenants/acme/processed_logs/42"
     = Some (processed_record sample_normalized "2024-05-01T12:00:05")
  /\ snd second !! "tenants/acme/processed_logs/42"
     = Some (processed_record sample_normalized "2024-05-01T12:07:30").
Proof.
  cbv zeta. split; [split; vm_compute; reflexivity|].
  pose proof (redelivery_stores_same_content
                sample_b64decode_utf8 sample_json_loads sample_exn_str
                sample_worker_env (WorkerEnv "2024-05-01T12:07:30" true)
                (sample_envelope (VStr sample_data)) sample_normalized ∅
                eq_refl eq_refl eq_refl eq_refl) as H.
  cbv zeta in H. destruct H as (H1 & H2 & H3 & H4 & _).
  repeat split; assumption.
Defined.

Lemma processed_delivery_stored_under_tenant_path_witness :
  status (fst (process_pubsub sample_b64decode_utf8 sample_json_loads
                 sample_exn_str sample_worker_env
                 (Ret (sample_envelope (VStr sample_data))) ∅)) = 200%Z
  /\ exists doc,
       snd (process_pubsub sample_b64decode_utf8 sample_json_loads
              sample_exn_str sample_worker_env
              (Ret (sample_envelope (VStr sample_data))) ∅)
       = <["tenants/acme/processed_logs/42" := doc]> ∅.
Proof.
  assert (H : status (fst (process_pubsub sample_b64decode_utf8 sample_json_loads
                 sample_exn_str sample_worker_env
                 (Ret (sample_envelope (VStr sample_data))) ∅)) = 200%Z)
    by (vm_compute; reflexivity).
  split; [exact H|].
  destruct (processed_delivery_stored_under_tenant_path
              sample_b64decode_utf8 sample_json_loads sample_exn_str
              sample_worker_env _ ∅ H)
    as (envelope & message & t & l & txt & src & rcv
        & He & Hd & Ht & Hl & _ & _ & _ & Hp & Hs).
  injection He as <-.
  assert (Hd' : decode_delivery sample_b64decode_utf8 sample_json_loads
                  (sample_envelope (VStr sample_data)) = Ret sample_record)
    by (vm_compute; reflexivity).
  rewrite Hd' in Hd. injection Hd as <-.
  vm_compute in Ht. injection Ht as <-.
  vm_compute in Hl. injection Hl as <-.
  eexists. exact Hs.
Defined.



(** C2, on the code: the text of the end-to-end scenario comes out of the
    transform as it went in, and the document stored for it has that text
    as modified_data, with text_length 20. *)
Theorem scenario_number_not_redacted :
  simulate_heavy_processing "ping 555-0199 please" = "ping 555-0199 please"
  /\ process_pubsub sample_b64decode_utf8 sample_json_loads sample_exn_str
       sample_worker_env (Ret (sample_envelope (VStr ping_data))) ∅
     = (Response [ ("status", VStr "processed");
                   ("tenant_id", VStr "acme"); ("log_id", VStr "7") ] 200,
        <["tenants/acme/processed_logs/7" :=
            [ ("source", VStr "json_upload");
              ("original_text", VStr "ping 555-0199 please");
              ("modified_data", VStr "ping 555-0199 please");
              ("processed_at", VStr "2024-05-01T12:00:05Z");
              ("received_at", VStr "2024-05-01T12:00:00Z");
              ("text_length", VInt 20) ]]> ∅).
Proof.
  split; [vm_compute; reflexivity|].
  rewrite (process_pubsub_record sample_b64decode_utf8 sample_json_loads
             sample_exn_str sample_worker_env _
             (NormalizedRecord "acme" "7" "ping 555-0199 please" "json_upload"
                               "2024-05-01T12:00:00Z"))
    by reflexivity.
  reflexivity.
Qed.

(** * The gateway *)

(** [ingest] leaves the bus as it was, or answers 202 and has published
    one message. *)
Lemma ingest_bus env req bus :
  snd (ingest env req bus) = bus
  \/ (status (fst (ingest env req bus)) = 202%Z
      /\ exists tenant log txt src t,
           tenant = VStr t
           /\ snd (ingest env req bus)
              = Published (normalize_to_internal_format env tenant log txt src) t
                  :: bus).
Proof.
  run_ingest; auto; right; (split; [reflexivity|]);
    do 5 eexists; (split; [reflexivity|]); reflexivity.
Qed.




(** C8, as amended: a structured request whose body is a non-empty object
    without a non-empty tenant_id is answered 400 with the reason "Missing
    tenant_id"; a raw request without a non-empty tenant header is answered
    400 with the reason "Missing X-Tenant-ID header"; a request of neither
    kind is answered 415. *)
Theorem missing_tenant_and_unsupported_kind env req bus :
  (forall d,
     payload_kind req = Structured ->
     get_json req = Ret (VDict d) -> d <> [] ->
     field_truthy "tenant_id" d = false ->
     ingest env req bus = (error_response "Missing tenant_id" 400, bus))
  /\ (payload_kind req = RawText ->
      x_tenant_id req = None \/ x_tenant_id req = Some "" ->
      ingest env req bus
      = (error_response "Missing X-Tenant-ID header" 400, bus))
  /\ (payload_kind req = Unsupported ->
      status (fst (ingest env req bus)) = 415%Z)
  /\ str_contains "tenant_id" "Missing tenant_id" = true
  /\ str_contains "X-Tenant-ID" "Missing X-Tenant-ID header" = true.
Proof.
  split; [|split; [|split; [|split; reflexivity]]].
  - intros d Hk Hj Hd. revert Hk. unfold payload_kind, field_truthy.
    unfold ingest, ingest_try. rewrite Hj.
    destruct (str_contains "application/json" _); [|repeat inner_case; discriminate].
    intros _. destruct d as [|kv d]; [contradiction|].
    cbn [bind truthy negb py_get].
    destruct (dict_lookup "tenant_id" (kv :: d)) as [v|]; cbn [truthy];
      intros H; rewrite ?H; reflexivity.
  - unfold payload_kind. unfold ingest, ingest_try.
    destruct (str_contains "application/json" _); [discriminate|].
    destruct (str_contains "text/plain" _); [|discriminate].
    intros _ [-> | ->]; reflexivity.
  - unfold payload_kind. unfold ingest, ingest_try.
    destruct (str_contains "application/json" _); [discriminate|].
    destruct (str_contains "text/plain" _); [discriminate|].
    reflexivity.
Qed.

Lemma missing_tenant_and_unsupported_kind_witness :
  (payload_kind no_tenant_request = Structured
   /\ field_truthy "tenant_id" [ ("text", VStr "hi") ] = false)
  /\ ingest sample_gateway_env no_tenant_request []
     = (error_response "Missing tenant_id" 400, []).
Proof.
  split; [split; reflexivity|].
  apply (proj1 (missing_tenant_and_unsupported_kind
                  sample_gateway_env no_tenant_request []))
    with (d := [ ("text", VStr "hi") ]);
    [reflexivity | reflexivity | discriminate | reflexivity].
Defined.

(** C8, as stated, fails: a structured request whose body is the empty
    object has no tenant_id, and the reason of its 400 does not mention the
    tenant field. *)
Lemma empty_object_reason_not_tenant :
  payload_kind empty_object_request = Structured
  /\ get_json empty_object_request = Ret (VDict [])
  /\ dict_lookup "tenant_id" [] = None
  /\ ingest sample_gateway_env empty_object_request []
     = (error_response "Invalid JSON payload" 400, [])
  /\ str_contains "tenant" "Invalid JSON payload" = false.
Proof. repeat split. Qed.

(** C4, on the code: a structured request that gives an empty log_id is
    accepted, and the record published for it has an empty log_id. *)
Theorem explicit_empty_log_id_published :
  ingest sample_gateway_env empty_log_id_request []
  = (Response [ ("status", VStr "accepted");
                ("message_id", VStr "1234567890");
                ("log_id", VStr "");
                ("tenant_id", VStr "acme") ] 202,
     [ Published (VDict [ ("tenant_id", VStr "acme");
                          ("log_id", VStr "");
                          ("text", VStr "hi");
                          ("source", VStr "json_upload");
                          ("received_at", VStr "2024-05-01T12:00:00Z") ])
                 "acme" ]).
Proof. reflexivity. Qed.

(** C10: normalisation sets received_at to the reading of the gateway's
    clock, whatever the other fields; a request answered 202 (as every raw
    request with a tenant header and a body is, when the bus confirms the
    publish) has put on the bus one record, the normalised one, whose
    received_at is that reading; a delivery of a well-formed record that
    the store accepts is answered 200, and the document stored for a
    delivery answered 200 has the received_at of the decoded record, as it
    is; so the document stored for the record of an accepted request has
    the gateway's reading, whatever the worker's clock says. *)
Theorem received_at_set_once_and_kept :
  (forall env tenant log txt src,
     py_get (normalize_to_internal_format env tenant log txt src)
            "received_at" VNone
     = Ret (VStr (g_utcnow env ++ "Z")))
  /\ (forall env req bus,
        status (fst (ingest env req bus)) = 202%Z ->
        exists tenant log txt src t,
          snd (ingest env req bus)
          = Published (normalize_to_internal_format env tenant log txt src) t
              :: bus)
  /\ (forall env req t mid bus,
        payload_kind req = RawText ->
        x_tenant_id req = Some t -> nonempty t = true ->
        nonempty (get_data req) = true ->
        publish_result env = Ret mid ->
        status (fst (ingest env req bus)) = 202%Z)
  /\ (forall b64decode_utf8 json_loads exn_str env envelope rec db,
        decode_delivery b64decode_utf8 json_loads envelope
        = Ret (record_value rec) ->
        well_formed rec = true ->
        firestore_accepts env = true ->
        status (fst (process_pubsub b64decode_utf8 json_loads exn_str
                       env (Ret envelope) db)) = 200%Z)
  /\ (forall b64decode_utf8 json_loads exn_str env get_json db,
        status (fst (process_pubsub b64decode_utf8 json_loads exn_str
                       env get_json db)) = 200%Z ->
        exists envelope message t l rcv doc,
          get_json = Ret envelope
          /\ decode_delivery b64decode_utf8 json_loads envelope = Ret message
          /\ py_get message "tenant_id" VNone = Ret (VStr t)
          /\ py_get message "log_id" VNone = Ret (VStr l)
          /\ py_get message "received_at" VNone = Ret rcv
          /\ snd (process_pubsub b64decode_utf8 json_loads exn_str
                    env get_json db) !! doc_path t l = Some doc
          /\ dict_lookup "received_at" doc = Some rcv)
  /\ (forall b64decode_utf8 json_loads exn_str genv wenv req bus p envelope db,
        status (fst (ingest genv req bus)) = 202%Z ->
        snd (ingest genv req bus) = p :: bus ->
        decode_delivery b64decode_utf8 json_loads envelope = Ret (payload p) ->
        status (fst (process_pubsub b64decode_utf8 json_loads exn_str
                       wenv (Ret envelope) db)) = 200%Z ->
        exists t l doc,
          py_get (payload p) "tenant_id" VNone = Ret (VStr t)
          /\ py_get (payload p) "log_id" VNone = Ret (VStr l)
          /\ snd (process_pubsub b64decode_utf8 json_loads exn_str
                    wenv (Ret envelope) db) !! doc_path t l = Some doc
          /\ dict_lookup "received_at" doc
             = Some (VStr (g_utcnow genv ++ "Z"))).
Proof.
  assert (Hset : forall env tenant log txt src,
             py_get (normalize_to_internal_format env tenant log txt src)
                    "received_at" VNone
             = Ret (VStr (g_utcnow env ++ "Z"))) by reflexivity.
  assert (Hpub : forall env req bus,
             status (fst (ingest env req bus)) = 202%Z ->
             exists tenant log txt src t,
               snd (ingest env req bus)
               = Published (normalize_to_internal_format env tenant log txt src) t
                   :: bus).
  { intros env req bus H202.
    destruct (ingest_bus env req bus) as [Hb|[_ Hp]].
    - exfalso. revert H202 Hb. run_ingest; intros H; try discriminate;
        intros Hb; apply (f_equal (@length published)) in Hb;
        simpl in Hb; lia.
    - destruct Hp as (tenant & log & txt & src & t & _ & Hp).
      exists tenant, log, txt, src, t. exact Hp. }
  assert (Hkept : forall b64decode_utf8 json_loads exn_str env get_json db,
             status (fst (process_pubsub b64decode_utf8 json_loads exn_str
                            env get_json db)) = 200%Z ->
             exists envelope message t l rcv doc,
               get_json = Ret envelope
               /\ decode_delivery b64decode_utf8 json_loads envelope = Ret message
               /\ py_get message "tenant_id" VNone = Ret (VStr t)
               /\ py_get message "log_id" VNone = Ret (VStr l)
               /\ py_get message "received_at" VNone = Ret rcv
               /\ snd (process_pubsub b64decode_utf8 json_loads exn_str
                         env get_json db) !! doc_path t l = Some doc
               /\ dict_lookup "received_at" doc = Some rcv).
  { intros b64decode_utf8 json_loads exn_str env get_json db.
    unfold process_pubsub.
    destruct (process_pubsub_try _ _ env get_json db) as [[r db']|e] eqn:E;
      [|simpl; discriminate].
    cbn [fst snd]. intros Hr.
    destruct get_json as [envelope|e]; [|discriminate].
    destruct (process_pubsub_try_200 _ _ _ _ _ _ _ E Hr) as (message & Hd & Hm).
    destruct (process_message_200 _ _ _ _ _ Hm Hr)
      as (t & l & txt & src & rcv & H1 & H2 & H3 & H4 & H5 & _ & ->).
    exists envelope, message, t, l, rcv. eexists.
    repeat (split; [eassumption || reflexivity|]).
    split; [apply lookup_insert_eq | reflexivity]. }
  split; [exact Hset|]. split; [exact Hpub|]. split; [|split; [|split]].
  - intros env req t mid bus Hk Eh Ht Hb Hp. revert Hk.
    unfold payload_kind, ingest, ingest_try.
    destruct (str_contains "application/json" _); [discriminate|].
    destruct (str_contains "text/plain" _); [|discriminate]. intros _.
    rewrite Eh. destruct t as [|c t]; [discriminate|].
    unfold nonempty in Hb. apply negb_true_iff in Hb. rewrite Hb.
    unfold ingest_publish, publish_to_pubsub, normalize_to_internal_format.
    cbn. rewrite Hp. reflexivity.
  - intros b64decode_utf8 json_loads exn_str env envelope rec db Hd Hwf Ha.
    unfold well_formed in Hwf.
    repeat (apply andb_true_iff in Hwf; destruct Hwf as [Hwf ?]).
    rewrite (process_pubsub_record b64decode_utf8 json_loads exn_str
               env envelope rec db) by assumption.
    reflexivity.
  - exact Hkept.
  - intros b64decode_utf8 json_loads exn_str genv wenv req bus p envelope db
           H202 Hbus Hd H200.
    destruct (Hpub genv req bus H202) as (tenant & log & txt & src & t0 & Hp).
    rewrite Hp in Hbus. injection Hbus as <-. cbn [payload] in *.
    destruct (Hkept _ _ _ _ _ _ H200)
      as (envelope' & message & t & l & rcv & doc
          & He & Hd' & Ht & Hl & Hr & Hs & Hk).
    injection He as <-. rewrite Hd in Hd'. injection Hd' as <-.
    rewrite Hset in Hr. injection Hr as <-.
    exists t, l, doc. auto.
Qed.

Lemma received_at_set_once_and_kept_witness :
  let b64decode_utf8 := one_b64decode_utf8 raw_data raw_json in
  let json_loads := one_json_loads raw_json raw_value in
  let envelope := sample_envelope (VStr raw_data) in
  let delivered :=
    process_pubsub b64decode_utf8 json_loads sample_exn_str
                   sample_worker_env (Ret envelope) ∅ in
  (ingest sample_gateway_env raw_request []
   = (Response [ ("status", VStr "accepted");
                 ("message_id", VStr "1234567890");
                 ("log_id", VStr "0b0e3b1c-5c1f-4a53-9a57-1f2f0c0d7e11");
                 ("tenant_id", VStr "acme") ] 202,
      [ Published raw_value "acme" ])
   /\ decode_delivery b64decode_utf8 json_loads envelope = Ret raw_value
   /\ status (fst delivered) = 200%Z)
  /\ exists doc,
       snd delivered
         !! "tenants/acme/processed_logs/0b0e3b1c-5c1f-4a53-9a57-1f2f0c0d7e11"
       = Some doc
       /\ dict_lookup "received_at" doc = Some (VStr "2024-05-01T12:00:00Z")
       /\ dict_lookup "processed_at" doc = Some (VStr "2024-05-01T12:00:05Z").
Proof.
  cbv zeta.
  assert (Hg : ingest sample_gateway_env raw_request []
               = (Response [ ("status", VStr "accepted");
                             ("message_id", VStr "1234567890");
                             ("log_id", VStr "0b0e3b1c-5c1f-4a53-9a57-1f2f0c0d7e11");
                             ("tenant_id", VStr "acme") ] 202,
                  [ Published raw_value "acme" ]))
    by reflexivity.
  assert (Hd : decode_delivery (one_b64decode_utf8 raw_data raw_json)
                 (one_json_loads raw_json raw_value)
                 (sample_envelope (VStr raw_data)) = Ret raw_value)
    by (vm_compute; reflexivity).
  assert (Hw : status (fst (process_pubsub (one_b64decode_utf8 raw_data raw_json)
                              (one_json_loads raw_json raw_value) sample_exn_str
                              sample_worker_env
                              (Ret (sample_envelope (VStr raw_data))) ∅)) = 200%Z)
    by (vm_compute; reflexivity).
  split; [split; [exact Hg | split; [exact Hd | exact Hw]]|].
  destruct (proj2 (proj2 (proj2 (proj2 (proj2 received_at_set_once_and_kept))))
              (one_b64decode_utf8 raw_data raw_json)
              (one_json_loads raw_json raw_value) sample_exn_str
              sample_gateway_env sample_worker_env raw_request []
              (Published raw_value "acme")
              (sample_envelope (VStr raw_data)) ∅
              eq_refl eq_refl Hd Hw)
    as (t & l & doc & Ht & Hl & Hs & Hk).
  cbn in Ht, Hl. injection Ht as <-. injection Hl as <-.
  exists doc. split; [exact Hs|]. split; [exact Hk|].
  rewrite (process_pubsub_record (one_b64decode_utf8 raw_data raw_json)
             (one_json_loads raw_json raw_value) sample_exn_str
             sample_worker_env (sample_envelope (VStr raw_data))
             (NormalizedRecord "acme" "0b0e3b1c-5c1f-4a53-9a57-1f2f0c0d7e11"
                "call 555-123-4567 now" "text_upload" "2024-05-01T12:00:00Z")
             ∅ Hd eq_refl eq_refl eq_refl eq_refl eq_refl) in Hs.
  cbn [snd] in Hs. unfold doc_path in Hs. cbn [String.append] in Hs.
  rewrite lookup_insert_eq in Hs. injection Hs as <-. reflexivity.
Defined.

(** * Further properties of the transform *)

Lemma pattern_free_search_free s : forall prev,
  pattern_free prev s -> search_free phone_pattern prev s = true.
Proof.
  induction s as [|c s IH]; intros prev H; cbn [search_free];
    destruct (Re.match_len phone_pattern prev _) as [n|] eqn:E.
  - destruct (match_len_Some _ _ _ E) as (m & rest & Hs & _ & Hm & Hd).
    exfalso. apply (H [] m rest); auto.
  - reflexivity.
  - destruct (match_len_Some _ _ _ E) as (m & rest & Hs & _ & Hm & Hd).
    exfalso. apply (H [] m rest); auto.
  - apply IH. intros pre m rest Hs Hm. apply (H (c :: pre) m rest); [|exact Hm].
    simpl. rewrite Hs. reflexivity.
Qed.

Lemma phone_shape_chars m : phone_shape m -> forallb phone_char m = true.
Proof.
  intros (d1 & s1 & d2 & s2 & d3 & -> & Hd1 & _ & Hs1 & Hd2 & _ & Hs2 & Hd3 & _).
  apply optional_sep_spec in Hs1, Hs2. destruct Hs1 as [Hs1 _], Hs2 as [Hs2 _].
  unfold all_digits in *. rewrite !forallb_app.
  assert (Hd : forall l, forallb Re.is_digit l = true -> forallb phone_char l = true).
  { intros l Hl. rewrite forallb_forall in *. intros x Hx.
    unfold phone_char. rewrite (Hl x Hx). reflexivity. }
  assert (Hs : forall l, forallb Re.is_sep l = true -> forallb phone_char l = true).
  { intros l Hl. rewrite forallb_forall in *. intros x Hx.
    unfold phone_char. rewrite (Hl x Hx). apply orb_true_r. }
  rewrite (Hd d1), (Hs s1), (Hd d2), (Hs s2), (Hd d3) by assumption. reflexivity.
Qed.

(** A phone number starts with a digit. *)
Lemma phone_shape_head m :
  phone_shape m -> exists c m', m = c :: m' /\ Re.is_digit c = true.
Proof.
  intros (d1 & s1 & d2 & s2 & d3 & -> & Hd1 & Hl1 & _).
  destruct d1 as [|c d1]; [discriminate|].
  exists c, (d1 ++ s1 ++ d2 ++ s2 ++ d3). split; [reflexivity|].
  unfold all_digits in Hd1. simpl in Hd1. apply andb_true_iff in Hd1. tauto.
Qed.

Lemma marker_chars c :
  In c (list_ascii_of_string REDACTED) -> phone_char c = false.
Proof.
  simpl. intros H.
  repeat (destruct H as [<-|H]; [reflexivity|]). contradiction.
Qed.

(** The output up to a character that is not of the marker was copied. *)
Lemma redacted_prefix_kept M : forall prev s o,
  redacted prev s (M ++ o) -> forallb phone_char M = true ->
  exists s', s = M ++ s' /\ redacted (Re.last_of prev M) s' o.
Proof.
  induction M as [|c M IH]; intros prev s o H HM.
  - exists s. auto.
  - simpl in HM. apply andb_true_iff in HM. destruct HM as [Hc HM].
    remember ((c :: M) ++ o) as out eqn:Eo.
    destruct H as [prev | prev c' s out Hno H | prev m rest out Hs Hd H].
    + discriminate.
    + injection Eo as -> ->.
      destruct (IH _ _ _ H HM) as (s' & -> & H').
      exists s'. auto.
    + exfalso. simpl in Eo. injection Eo as <- _.
      discriminate.
Qed.

(** After a word character, where the output does not start with one the
    input does not either. *)
Lemma redacted_head prev s o :
  redacted prev s o -> Re.word_opt prev = true ->
  Re.word_opt (head o) = false -> Re.word_opt (head s) = false.
Proof.
  intros H Hp Ho. destruct H as [prev | prev c s out Hno H | prev m rest out Hs [Hb _] H].
  - reflexivity.
  - exact Ho.
  - unfold Re.word_boundary in Hb. rewrite Hp in Hb.
    destruct (Re.word_opt (head (m ++ rest))); [discriminate | reflexivity].
Qed.

(** A match in [marker ++ o] lies in [o]. *)
Lemma occurrence_after_marker pre m rest o :
  pre ++ m ++ rest = list_ascii_of_string REDACTED ++ o ->
  phone_shape m ->
  exists pre', pre = list_ascii_of_string REDACTED ++ pre' /\ o = pre' ++ m ++ rest.
Proof.
  intros E Hm.
  destruct (Nat.le_ge_cases (length (list_ascii_of_string REDACTED)) (length pre)) as [H|H].
  - symmetry in E. destruct (app_eq_app_le _ _ _ _ E H) as (x & -> & ->).
    exists x. auto.
  - destruct (app_eq_app_le _ _ _ _ E H) as (x & Hx & Hmx).
    destruct (phone_shape_head m Hm) as (c & m' & -> & Hc).
    destruct x as [|c' x].
    + rewrite app_nil_r in Hx. exists []. rewrite app_nil_r.
      split; [symmetry; exact Hx | symmetry; exact Hmx].
    + exfalso. simpl in Hmx. injection Hmx as <- _.
      assert (Hin : In c (list_ascii_of_string REDACTED)).
      { rewrite Hx. apply in_or_app. right. left. reflexivity. }
      apply marker_chars in Hin. unfold phone_char in Hin. rewrite Hc in Hin.
      discriminate.
Qed.

(** The output of the scan holds no match of the pattern: not where the
    input had none, and not next to a marker. *)
Lemma redacted_pattern_free prev s o :
  redacted prev s o ->
  forall prev',
    prev' = prev \/ (Re.word_opt prev = true /\ Re.word_opt (head s) = false) ->
    pattern_free prev' o.
Proof.
  induction 1 as [prev | prev c s out Hno H IH | prev m rest out Hs Hd H IH];
    intros prev' Hp pre M rest' E HM HD.
  - apply phone_shape_length in HM.
    destruct pre; [destruct M; simpl in *; [lia | discriminate] | discriminate].
  - destruct pre as [|c' pre].
    + simpl in E, HD.
      destruct (redacted_prefix_kept M prev (c :: s) rest') as (s' & Es & H').
      { rewrite <- E. apply redacted_keep; assumption. }
      { apply phone_shape_chars. exact HM. }
      destruct Hp as [->|[Hw Hc]].
      * apply (Hno M s' Es HM). destruct HD as [Hb He]. split.
        -- rewrite <- Es. destruct (phone_shape_head M HM) as (x & M' & -> & _).
           simpl in Hb |- *. injection Es as <- _. exact Hb.
        -- assert (Hl : Re.word_opt (Re.last_of prev M) = true)
             by (apply phone_shape_last; exact HM).
           unfold Re.word_boundary in *. rewrite Hl in *.
           rewrite (redacted_head _ _ _ H' Hl); [reflexivity|].
           destruct (Re.word_opt (head rest')); [discriminate | reflexivity].
      * destruct (phone_shape_head M HM) as (x & M' & -> & Hx).
        injection Es as <- _. simpl in Hc.
        apply is_digit_word in Hx. rewrite Hx in Hc. discriminate.
    + injection E as <- E. simpl in HD.
      apply (IH (Some c) (or_introl eq_refl) pre M rest' E HM HD).
  - symmetry in E.
    destruct (occurrence_after_marker _ _ _ _ E HM) as (pre' & -> & E').
    rewrite last_of_app in HD.
    refine (IH (Re.last_of prev' (list_ascii_of_string REDACTED)) _ pre' M rest' E' HM HD).
    right. split; [apply phone_shape_last; exact Hs|].
    destruct Hd as [_ He]. unfold Re.word_boundary in He.
    rewrite (phone_shape_last prev m Hs) in He.
    destruct (Re.word_opt (head rest)); [discriminate | reflexivity].
Qed.

(** X1: the transform applied to its own output changes nothing. *)
Theorem transform_idempotent (text : string) :
  simulate_heavy_processing (simulate_heavy_processing text)
  = simulate_heavy_processing text.
Proof.
  assert (H : redacted None (list_ascii_of_string text)
                (list_ascii_of_string (simulate_heavy_processing text))).
  { unfold simulate_heavy_processing, Re.sub.
    rewrite list_ascii_of_string_of_list_ascii.
    eapply sub_scan_redacted. reflexivity. }
  pose proof (redacted_pattern_free _ _ _ H None (or_introl eq_refl)) as Hf.
  apply pattern_free_search_free in Hf.
  unfold simulate_heavy_processing at 1. unfold Re.sub.
  rewrite search_free_copy by exact Hf.
  apply string_of_list_ascii_of_string.
Qed.

Lemma length_list_ascii_of_string s :
  length (list_ascii_of_string s) = String.length s.
Proof. induction s as [|c s IH]; simpl; [reflexivity | rewrite IH; reflexivity]. Qed.

Lemma redacted_length prev s o : redacted prev s o -> length o <= length s.
Proof.
  induction 1 as [prev | prev c s out _ _ IH | prev m rest out Hs _ _ IH]; simpl.
  - lia.
  - lia.
  - apply phone_shape_length in Hs. rewrite length_app. simpl. lia.
Qed.

(** X2: the transform never makes a text longer. *)
Theorem transform_not_longer (text : string) :
  String.length (simulate_heavy_processing text) <= String.length text.
Proof.
  rewrite <- !length_list_ascii_of_string.
  apply (redacted_length None).
  unfold simulate_heavy_processing, Re.sub.
  rewrite list_ascii_of_string_of_list_ascii.
  eapply sub_scan_redacted. reflexivity.
Qed.

Lemma filter_all {A : Type} (f : A -> bool) l :
  forallb f l = true -> List.filter f l = l.
Proof.
  induction l as [|a l IH]; simpl; [reflexivity|].
  intros H. apply andb_true_iff in H. destruct H as [-> H].
  rewrite IH by exact H. reflexivity.
Qed.

Lemma count_digits_app a b : count_digits (a ++ b) = count_digits a + count_digits b.
Proof. unfold count_digits. rewrite List.filter_app, length_app. reflexivity. Qed.

(** A phone number has at least ten digits. *)
Lemma phone_shape_digits m : phone_shape m -> 10 <= count_digits m.
Proof.
  intros (d1 & s1 & d2 & s2 & d3 & -> & Hd1 & Hl1 & _ & Hd2 & Hl2 & _ & Hd3 & Hl3).
  rewrite !count_digits_app. unfold count_digits at 1 3 5.
  unfold all_digits in *.
  rewrite (filter_all _ d1 Hd1), (filter_all _ d2 Hd2), (filter_all _ d3 Hd3).
  lia.
Qed.

(** X3: a text with fewer than ten digits is left as it is. *)
Theorem transform_needs_ten_digits (text : string) :
  count_digits (list_ascii_of_string text) < 10 ->
  simulate_heavy_processing text = text.
Proof.
  intros H. unfold simulate_heavy_processing, Re.sub.
  rewrite search_free_copy; [apply string_of_list_ascii_of_string|].
  apply pattern_free_search_free.
  intros pre m rest E Hm _. apply phone_shape_digits in Hm.
  rewrite E, !count_digits_app in H. lia.
Qed.

Lemma transform_needs_ten_digits_witness :
  count_digits (list_ascii_of_string "order 555-0199, room 42") < 10
  /\ simulate_heavy_processing "order 555-0199, room 42"
     = "order 555-0199, room 42".
Proof.
  split; [vm_compute; lia|].
  apply transform_needs_ten_digits. vm_compute. lia.
Defined.

(** * Further properties of the worker *)

Lemma field_truthy_Some k d :
  field_truthy k d = true ->
  exists v, dict_lookup k d = Some v /\ truthy v = true.
Proof.
  unfold field_truthy. destruct (dict_lookup k d) as [v|]; [eauto | discriminate].
Qed.

(** The three ways [process_message] ends; none depends on the store. *)
Lemma process_message_shape env message :
  (exists e, forall db, process_message env message db = Raise e)
  \/ (exists r, status r = 400%Z
                /\ forall db, process_message env message db = Ret (r, db))
  \/ (exists r p doc,
        status r = 200%Z /\ firestore_accepts env = true
        /\ forall db, process_message env message db = Ret (r, <[p := doc]> db)).
Proof.
  destruct message as [| | | | |d];
    try (left; exists AttributeError; reflexivity).
  unfold process_message, py_get. cbn [bind].
  destruct (negb (forallb truthy _)) eqn:Hall.
  - right; left. eexists. split; [|reflexivity]. reflexivity.
  - destruct (match dict_lookup "text" d with Some x => x | None => VNone end)
      as [| | |txt| |]; try (left; exists TypeError; reflexivity).
    unfold save_to_firestore.
    destruct (match dict_lookup "tenant_id" d with Some x => x | None => VNone end)
      as [| | |t| |]; try (left; exists TypeError; reflexivity).
    destruct (match dict_lookup "log_id" d with Some x => x | None => VNone end)
      as [| | |l| |]; try (left; exists TypeError; reflexivity).
    destruct (firestore_accepts env) eqn:Ha.
    + right; right. do 3 eexists. split; [|split; [reflexivity|]].
      2: { intros db. cbn [bind]. reflexivity. }
      reflexivity.
    + left. eexists. intros db. reflexivity.
Qed.

Section WorkerFurther.

Variable b64decode_utf8 : pyval -> res string.
Variable json_loads : string -> res pyval.
Variable exn_str : exn -> string.

Local Abbreviation decode := (decode_delivery b64decode_utf8 json_loads).

(** The two ways the handler ends: an answer 400 or 500 with the store as
    it was, or a 200 with one document written. *)
Lemma process_pubsub_shape env get_json :
  (exists r, (status r = 400%Z \/ status r = 500%Z)
             /\ forall db,
                  process_pubsub b64decode_utf8 json_loads exn_str
                    env get_json db = (r, db))
  \/ (exists r p doc,
        status r = 200%Z /\ firestore_accepts env = true
        /\ forall db,
             process_pubsub b64decode_utf8 json_loads exn_str
               env get_json db = (r, <[p := doc]> db)).
Proof.
  unfold process_pubsub, process_pubsub_try.
  destruct get_json as [envelope|e]; cbn [bind]; [|stop_with ltac:(right)].
  destruct (negb (truthy envelope)); [stop_with ltac:(left)|].
  destruct (py_contains "message" envelope) as [[|]|e]; cbn [bind negb];
    [ | stop_with ltac:(left) | stop_with ltac:(right) ].
  destruct (py_getitem envelope "message") as [pm|e]; cbn [bind];
    [|stop_with ltac:(right)].
  destruct (py_contains "data" pm) as [[|]|e]; cbn [bind];
    [ | stop_with ltac:(left) | stop_with ltac:(right) ].
  destruct (py_getitem pm "data") as [data|e]; cbn [bind]; [|stop_with ltac:(right)].
  destruct (b64decode_utf8 data) as [md|e]; cbn [bind]; [|stop_with ltac:(right)].
  destruct (json_loads md) as [message|e]; cbn [bind]; [|stop_with ltac:(right)].
  destruct (process_message_shape env message)
    as [(e & He) | [(r & Hr & He) | (r & p & doc & Hr & Ha & He)]].
  - left. eexists. split; [|intros db; rewrite He; reflexivity].
    right; reflexivity.
  - left. exists r. split; [left; exact Hr|]. intros db. rewrite He. reflexivity.
  - right. exists r, p, doc. split; [exact Hr|]. split; [exact Ha|].
    intros db. rewrite He. reflexivity.
Qed.

(** X4: the handler answers 200, 400 or 500, and leaves the store as it was
    unless it answers 200. *)
Theorem worker_status_and_frame env get_json db :
  let answer :=
    process_pubsub b64decode_utf8 json_loads exn_str env get_json db in
  (status (fst answer) = 200%Z
   \/ status (fst answer) = 400%Z
   \/ status (fst answer) = 500%Z)
  /\ (status (fst answer) <> 200%Z -> snd answer = db).
Proof.
  cbv zeta.
  destruct (process_pubsub_shape env get_json)
    as [(r & Hr & H) | (r & p & doc & Hr & _ & H)]; rewrite H; cbn [fst snd].
  - split; [tauto | reflexivity].
  - split; [tauto | contradiction].
Qed.

(** X5: delivering again with the same clock changes nothing more: the
    handler run on the store it left gives the same answer and store. *)
Theorem redelivery_same_clock_idempotent env get_json db :
  process_pubsub b64decode_utf8 json_loads exn_str env get_json
    (snd (process_pubsub b64decode_utf8 json_loads exn_str env get_json db))
  = process_pubsub b64decode_utf8 json_loads exn_str env get_json db.
Proof.
  destruct (process_pubsub_shape env get_json)
    as [(r & Hr & H) | (r & p & doc & Hr & _ & H)]; rewrite !H; cbn [snd].
  - reflexivity.
  - rewrite insert_insert_eq. reflexivity.
Qed.

(** X6: the answer of the handler does not depend on what the store
    holds. *)
Theorem worker_answer_ignores_store env get_json db1 db2 :
  fst (process_pubsub b64decode_utf8 json_loads exn_str env get_json db1)
  = fst (process_pubsub b64decode_utf8 json_loads exn_str env get_json db2).
Proof.
  destruct (process_pubsub_shape env get_json)
    as [(r & Hr & H) | (r & p & doc & Hr & _ & H)]; rewrite !H; reflexivity.
Qed.

(** X7: when the store refuses the write no delivery is answered 200, and
    the store is as it was. *)
Theorem refused_write_never_acknowledged env get_json db :
  firestore_accepts env = false ->
  let answer :=
    process_pubsub b64decode_utf8 json_loads exn_str env get_json db in
  status (fst answer) <> 200%Z /\ snd answer = db.
Proof.
  intros Ha. cbv zeta.
  destruct (process_pubsub_shape env get_json)
    as [(r & Hr & H) | (r & p & doc & Hr & Ha' & H)]; [|congruence].
  rewrite H. cbn [fst snd]. split; [|reflexivity].
  destruct Hr as [-> | ->]; discriminate.
Qed.

End WorkerFurther.

(** ** Paths of different tenants *)

Lemma no_slash_prefix t : forall t' a b,
  no_slash t = true -> no_slash t' = true ->
  (t ++ String "/" a)%string = (t' ++ String "/" b)%string ->
  t = t' /\ a = b.
Proof.
  induction t as [|c t IH]; intros [|c' t'] a b Ht Ht' E; simpl in *.
  - injection E as ->. auto.
  - injection E as <- _. discriminate.
  - injection E as -> _. discriminate.
  - injection E as -> E.
    apply andb_true_iff in Ht, Ht'. destruct Ht as [_ Ht], Ht' as [_ Ht'].
    destruct (IH t' a b Ht Ht' E) as [-> ->]. auto.
Qed.

(** X8: two records whose tenant ids have no slash are stored under the
    same path only if they have the same tenant id and the same log id. *)
Theorem doc_path_injective t l t' l' :
  no_slash t = true -> no_slash t' = true ->
  doc_path t l = doc_path t' l' -> t = t' /\ l = l'.
Proof.
  intros Ht Ht' E. unfold doc_path in E. simpl in E.
  injection E as E.
  destruct (no_slash_prefix t t' _ _ Ht Ht' E) as [-> E'].
  injection E' as ->. auto.
Qed.

Lemma doc_path_injective_witness :
  doc_path "acme" "42" = doc_path "acme" "42"
  /\ ("acme" = "acme" /\ "42" = "42").
Proof.
  split; [reflexivity|].
  apply doc_path_injective; reflexivity.
Defined.

Section WorkerIsolation.

Variable b64decode_utf8 : pyval -> res string.
Variable json_loads : string -> res pyval.
Variable exn_str : exn -> string.

Local Abbreviation decode := (decode_delivery b64decode_utf8 json_loads).
Local Abbreviation handler := (process_pubsub b64decode_utf8 json_loads exn_str).

(** X9: a delivery answered 200 for a tenant leaves every document of
    every other tenant as it was (tenant ids without a slash). *)
Theorem other_tenants_untouched env get_json db :
  status (fst (handler env get_json db)) = 200%Z ->
  exists envelope message t,
    get_json = Ret envelope
    /\ decode envelope = Ret message
    /\ py_get message "tenant_id" VNone = Ret (VStr t)
    /\ forall t' l',
         no_slash t = true -> no_slash t' = true -> t' <> t ->
         snd (handler env get_json db) !! doc_path t' l' = db !! doc_path t' l'.
Proof.
  unfold process_pubsub.
  destruct (process_pubsub_try _ _ env get_json db) as [[r db']|e] eqn:E;
    [|simpl; discriminate].
  cbn [fst snd]. intros Hr.
  destruct get_json as [envelope|e]; [|discriminate].
  destruct (process_pubsub_try_200 _ _ _ _ _ _ _ E Hr) as (message & Hd & Hm).
  destruct (process_message_200 _ _ _ _ _ Hm Hr)
    as (t & l & txt & src & rcv & H1 & _ & _ & _ & _ & _ & ->).
  exists envelope, message, t. repeat (split; [assumption || reflexivity|]).
  intros t' l' Ht Ht' Hne. apply lookup_insert_ne.
  intros Hp. apply doc_path_injective in Hp; [|assumption..].
  destruct Hp as [-> _]. contradiction.
Qed.

(** The handler on a record given as a dict whose four checked fields are
    not empty. *)
Lemma process_message_checked env d db :
  field_truthy "tenant_id" d = true -> field_truthy "log_id" d = true ->
  field_truthy "text" d = true -> field_truthy "source" d = true ->
  exists vt vl vx vs,
    dict_lookup "tenant_id" d = Some vt /\ dict_lookup "log_id" d = Some vl
    /\ dict_lookup "text" d = Some vx /\ dict_lookup "source" d = Some vs
    /\ process_message env (VDict d) db
       = match vx with
         | VStr original_text =>
             bind (save_to_firestore env vt vl original_text
                     (simulate_heavy_processing original_text) vs
                     (match dict_lookup "received_at" d with
                      | Some x => x | None => VNone end) db)
                  (fun db' =>
                     Ret (Response [ ("status", VStr "processed");
                                     ("tenant_id", vt); ("log_id", vl) ] 200,
                          db'))
         | _ => Raise TypeError
         end.
Proof.
  intros Ht Hl Hx Hs.
  apply field_truthy_Some in Ht, Hl, Hx, Hs.
  destruct Ht as (vt & Et & Ht), Hl as (vl & El & Hl),
           Hx as (vx & Ex & Hx), Hs as (vs & Es & Hs).
  exists vt, vl, vx, vs. repeat (split; [assumption|]).
  unfold process_message, py_get. cbn [bind forallb].
  rewrite Et, El, Ex, Es, Ht, Hl, Hx, Hs. reflexivity.
Qed.

(** X10: a record without received_at is processed all the same, and its
    document has None under received_at. *)
Theorem missing_received_at_stored_as_none env envelope d t l txt db :
  decode envelope = Ret (VDict d) ->
  dict_lookup "tenant_id" d = Some (VStr t) -> nonempty t = true ->
  dict_lookup "log_id" d = Some (VStr l) -> nonempty l = true ->
  dict_lookup "text" d = Some (VStr txt) -> nonempty txt = true ->
  field_truthy "source" d = true ->
  dict_lookup "received_at" d = None ->
  firestore_accepts env = true ->
  status (fst (handler env (Ret envelope) db)) = 200%Z
  /\ exists doc,
       snd (handler env (Ret envelope) db) !! doc_path t l = Some doc
       /\ dict_lookup "received_at" doc = Some VNone.
Proof.
  intros Hd Et Ht El Hl Ex Hx Hs Er Ha. unfold process_pubsub.
  rewrite (process_pubsub_try_decoded _ _ _ _ _ _ Hd).
  destruct (process_message_checked env d db)
    as (vt & vl & vx & vs & Et' & El' & Ex' & Es' & ->);
    try assumption;
    try (unfold field_truthy; rewrite ?Et, ?El, ?Ex; assumption).
  rewrite Et in Et'. rewrite El in El'. rewrite Ex in Ex'.
  injection Et' as <-. injection El' as <-. injection Ex' as <-.
  rewrite Er. unfold save_to_firestore. rewrite Ha. cbn [bind fst snd status].
  split; [reflexivity|]. eexists. split; [apply lookup_insert_eq | reflexivity].
Qed.

(** X11: a record whose tenant_id, log_id or text is not empty and is not
    a string is answered 500, and nothing is stored for it. *)
Theorem non_string_field_answered_500 env envelope d k v db :
  decode envelope = Ret (VDict d) ->
  field_truthy "tenant_id" d = true -> field_truthy "log_id" d = true ->
  field_truthy "text" d = true -> field_truthy "source" d = true ->
  In k ["tenant_id"; "log_id"; "text"] ->
  dict_lookup k d = Some v -> (forall s, v <> VStr s) ->
  handler env (Ret envelope) db = (error_response (exn_str TypeError) 500, db).
Proof.
  intros Hd Ht Hl Hx Hs Hk Ev Hv. unfold process_pubsub.
  rewrite (process_pubsub_try_decoded _ _ _ _ _ _ Hd).
  destruct (process_message_checked env d db Ht Hl Hx Hs)
    as (vt & vl & vx & vs & Et & El & Ex & Es & ->).
  simpl in Hk. destruct Hk as [<-|[<-|[<-|[]]]].
  - rewrite Et in Ev. injection Ev as ->.
    destruct vx; try reflexivity.
    destruct v; try reflexivity. exfalso. eapply Hv. reflexivity.
  - rewrite El in Ev. injection Ev as ->.
    destruct vx; try reflexivity.
    destruct vt; try reflexivity.
    destruct v; try reflexivity. exfalso. eapply Hv. reflexivity.
  - rewrite Ex in Ev. injection Ev as ->.
    destruct v; try reflexivity. exfalso. eapply Hv. reflexivity.
Qed.

End WorkerIsolation.

(** * Further properties of the gateway *)

Lemma payload_kind_structured req :
  payload_kind req = Structured ->
  str_contains "application/json"
    (match content_type req with Some c => c | None => "" end) = true.
Proof.
  unfold payload_kind. destruct (str_contains "application/json" _); [reflexivity|].
  destruct (str_contains "text/plain" _); discriminate.
Qed.

Lemma payload_kind_raw req :
  payload_kind req = RawText ->
  str_contains "application/json"
    (match content_type req with Some c => c | None => "" end) = false
  /\ str_contains "text/plain"
       (match content_type req with Some c => c | None => "" end) = true.
Proof.
  unfold payload_kind. destruct (str_contains "application/json" _); [discriminate|].
  destruct (str_contains "text/plain" _); [auto | discriminate].
Qed.

(** What [ingest] does with a valid structured request. *)
Lemma ingest_structured_ok env req d t bus mid :
  payload_kind req = Structured ->
  get_json req = Ret (VDict d) ->
  dict_lookup "tenant_id" d = Some (VStr t) -> nonempty t = true ->
  field_truthy "text" d = true ->
  publish_result env = Ret mid ->
  exists txt,
    dict_lookup "text" d = Some txt
    /\ let lid := match dict_lookup "log_id" d with
                  | Some x => x
                  | None => VStr (uuid4 env)
                  end in
       ingest env req bus
       = (Response [ ("status", VStr "accepted");
                     ("message_id", VStr mid);
                     ("log_id", lid);
                     ("tenant_id", VStr t) ] 202,
          Published (VDict [ ("tenant_id", VStr t);
                             ("log_id", lid);
                             ("text", txt);
                             ("source", VStr "json_upload");
                             ("received_at", VStr (g_utcnow env ++ "Z")) ]) t
            :: bus).
Proof.
  intros Hk Hj Et Ht Hx Hp.
  apply field_truthy_Some in Hx. destruct Hx as (txt & Ex & Hx).
  exists txt. split; [exact Ex|]. cbv zeta.
  unfold ingest, ingest_try. rewrite (payload_kind_structured req Hk), Hj.
  assert (Hd : truthy (VDict d) = true) by (destruct d; [discriminate | reflexivity]).
  cbn [bind]. rewrite Hd. unfold py_get. cbn [bind negb].
  rewrite Et, Ex. change (truthy (VStr t)) with (nonempty t). rewrite Ht, Hx.
  cbn [negb]. unfold ingest_publish, publish_to_pubsub, normalize_to_internal_format.
  cbn. rewrite Hp. reflexivity.
Qed.

(** X12: a structured request with a non-empty string tenant_id and a
    non-empty text is answered 202 once the bus confirms, and the record
    published has the source json_upload, the log_id of the request when it
    gives one and a generated one otherwise, and the tenant_id as the
    attribute of the message. *)
Theorem structured_request_accepted env req d t bus mid :
  payload_kind req = Structured ->
  get_json req = Ret (VDict d) ->
  dict_lookup "tenant_id" d = Some (VStr t) -> nonempty t = true ->
  field_truthy "text" d = true ->
  publish_result env = Ret mid ->
  exists txt,
    dict_lookup "text" d = Some txt
    /\ let lid := match dict_lookup "log_id" d with
                  | Some x => x
                  | None => VStr (uuid4 env)
                  end in
       ingest env req bus
       = (Response [ ("status", VStr "accepted");
                     ("message_id", VStr mid);
                     ("log_id", lid);
                     ("tenant_id", VStr t) ] 202,
          Published (VDict [ ("tenant_id", VStr t);
                             ("log_id", lid);
                             ("text", txt);
                             ("source", VStr "json_upload");
                             ("received_at", VStr (g_utcnow env ++ "Z")) ]) t
            :: bus).
Proof. exact (ingest_structured_ok env req d t bus mid). Qed.

Lemma structured_request_accepted_witness :
  let req := Request (Some "application/json; charset=utf-8")
                     (Ret (VDict [ ("tenant_id", VStr "acme");
                                   ("text", VStr "call 555-123-4567 now") ]))
                     None "" in
  payload_kind req = Structured
  /\ status (fst (ingest sample_gateway_env req [])) = 202%Z.
Proof.
  cbv zeta. split; [reflexivity|].
  destruct (structured_request_accepted sample_gateway_env
              (Request (Some "application/json; charset=utf-8")
                 (Ret (VDict [ ("tenant_id", VStr "acme");
                               ("text", VStr "call 555-123-4567 now") ]))
                 None "")
              _ "acme" [] "1234567890"
              eq_refl eq_refl eq_refl eq_refl eq_refl eq_refl)
    as (txt & _ & H).
  cbv zeta in H. rewrite H. reflexivity.
Defined.

(** What [ingest] does with a valid raw request. *)
Lemma ingest_raw_ok env req t bus mid :
  payload_kind req = RawText ->
  x_tenant_id req = Some t -> nonempty t = true ->
  nonempty (get_data req) = true ->
  publish_result env = Ret mid ->
  ingest env req bus
  = (Response [ ("status", VStr "accepted");
                ("message_id", VStr mid);
                ("log_id", VStr (uuid4 env));
                ("tenant_id", VStr t) ] 202,
     Published (VDict [ ("tenant_id", VStr t);
                        ("log_id", VStr (uuid4 env));
                        ("text", VStr (get_data req));
                        ("source", VStr "text_upload");
                        ("received_at", VStr (g_utcnow env ++ "Z")) ]) t
       :: bus).
Proof.
  intros Hk Eh Ht Hb Hp.
  destruct (payload_kind_raw req Hk) as [H1 H2].
  unfold ingest, ingest_try. rewrite H1, H2, Eh.
  destruct t as [|c t]; [discriminate|].
  unfold nonempty in Hb. apply negb_true_iff in Hb. rewrite Hb.
  unfold ingest_publish, publish_to_pubsub, normalize_to_internal_format.
  cbn. rewrite Hp. reflexivity.
Qed.

(** X13: a raw request with a non-empty tenant header and a non-empty body
    is answered 202 once the bus confirms, and the record published has the
    body as text, the source text_upload and a generated log_id. *)
Theorem raw_request_accepted env req t bus mid :
  payload_kind req = RawText ->
  x_tenant_id req = Some t -> nonempty t = true ->
  nonempty (get_data req) = true ->
  publish_result env = Ret mid ->
  ingest env req bus
  = (Response [ ("status", VStr "accepted");
                ("message_id", VStr mid);
                ("log_id", VStr (uuid4 env));
                ("tenant_id", VStr t) ] 202,
     Published (VDict [ ("tenant_id", VStr t);
                        ("log_id", VStr (uuid4 env));
                        ("text", VStr (get_data req));
                        ("source", VStr "text_upload");
                        ("received_at", VStr (g_utcnow env ++ "Z")) ]) t
       :: bus).
Proof. exact (ingest_raw_ok env req t bus mid). Qed.

Lemma raw_request_accepted_witness :
  let req := Request (Some "text/plain") (Raise (LibraryError "UnsupportedMediaType"))
                     (Some "acme") "ping 555-0199 please" in
  payload_kind req = RawText
  /\ status (fst (ingest sample_gateway_env req [])) = 202%Z.
Proof.
  cbv zeta. split; [reflexivity|].
  rewrite (raw_request_accepted sample_gateway_env
             (Request (Some "text/plain") (Raise (LibraryError "UnsupportedMediaType"))
                      (Some "acme") "ping 555-0199 please")
             "acme" [] "1234567890" eq_refl eq_refl eq_refl eq_refl eq_refl).
  reflexivity.
Defined.

(** X14: [ingest] answers 202, 400, 415 or 500, and leaves the bus as it
    was unless it answers 202. *)
Theorem gateway_status_and_frame env req bus :
  (status (fst (ingest env req bus)) = 202%Z
   \/ status (fst (ingest env req bus)) = 400%Z
   \/ status (fst (ingest env req bus)) = 415%Z
   \/ status (fst (ingest env req bus)) = 500%Z)
  /\ (status (fst (ingest env req bus)) <> 202%Z ->
      snd (ingest env req bus) = bus).
Proof.
  run_ingest; (split; [tauto|]); intros H; try reflexivity;
    exfalso; apply H; reflexivity.
Qed.

(** X15: when the bus does not confirm the publish, no request is answered
    202 and nothing is on the bus for it. *)
Theorem unconfirmed_publish_not_accepted env req bus e :
  publish_result env = Raise e ->
  status (fst (ingest env req bus)) <> 202%Z
  /\ snd (ingest env req bus) = bus.
Proof.
  intros Hp. unfold ingest, ingest_try, ingest_publish, publish_to_pubsub.
  rewrite Hp.
  unfold bind, py_getitem, normalize_to_internal_format;
    repeat (cbn; inner_case); cbn; split; (reflexivity || discriminate).
Qed.

Lemma unconfirmed_publish_not_accepted_witness :
  let env := GatewayEnv "2024-05-01T12:00:00" "0b0e3b1c"
                        (Raise (LibraryError "DeadlineExceeded")) in
  ingest env no_tenant_request [] = (error_response "Missing tenant_id" 400, [])
  /\ status (fst (ingest env empty_log_id_request [])) <> 202%Z
  /\ snd (ingest env empty_log_id_request []) = [].
Proof.
  cbv zeta. split; [reflexivity|].
  apply (unconfirmed_publish_not_accepted _ _ _ (LibraryError "DeadlineExceeded")).
  reflexivity.
Defined.

(** X16: the record published for a request answered 202 has the five
    fields tenant_id, log_id, text, source and received_at, a non-empty
    string as tenant_id, which is also the attribute of the message, a text
    that is not empty, and json_upload or text_upload as source; the answer
    carries the same log_id and tenant_id. *)
Theorem accepted_record_shape env req bus :
  status (fst (ingest env req bus)) = 202%Z ->
  exists t lid txt src mid,
    ingest env req bus
    = (Response [ ("status", VStr "accepted");
                  ("message_id", VStr mid);
                  ("log_id", lid);
                  ("tenant_id", VStr t) ] 202,
       Published (VDict [ ("tenant_id", VStr t);
                          ("log_id", lid);
                          ("text", txt);
                          ("source", VStr src);
                          ("received_at", VStr (g_utcnow env ++ "Z")) ]) t
         :: bus)
    /\ nonempty t = true /\ truthy txt = true
    /\ (src = "json_upload" \/ src = "text_upload")
    /\ publish_result env = Ret mid.
Proof.
  run_ingest; intros H; try discriminate;
    do 5 eexists; (split; [reflexivity|]);
    repeat match goal with
           | H : negb _ = false |- _ => apply negb_false_iff in H
           end;
    repeat split; auto;
    try (unfold nonempty; cbn [truthy] in *; assumption);
    cbn [truthy];
    match goal with H : String.eqb _ _ = false |- _ => rewrite H end;
    reflexivity.
Qed.

Lemma accepted_record_shape_witness :
  status (fst (ingest sample_gateway_env empty_log_id_request [])) = 202%Z
  /\ exists p, snd (ingest sample_gateway_env empty_log_id_request []) = [p]
               /\ attr_tenant_id p = "acme".
Proof.
  assert (H : status (fst (ingest sample_gateway_env empty_log_id_request []))
              = 202%Z) by reflexivity.
  split; [exact H|].
  destruct (accepted_record_shape sample_gateway_env empty_log_id_request [] H)
    as (t & lid & txt & src & mid & E & _).
  eexists. split; reflexivity.
Defined.

(** X17: a structured request whose tenant_id is not empty and is not a
    string, with a non-empty text, is answered 500 and nothing is
    published for it. *)
Theorem non_string_tenant_answered_500 env req d v bus :
  payload_kind req = Structured ->
  get_json req = Ret (VDict d) ->
  dict_lookup "tenant_id" d = Some v -> truthy v = true ->
  (forall s, v <> VStr s) ->
  field_truthy "text" d = true ->
  ingest env req bus = (error_response "Internal server error" 500, bus).
Proof.
  intros Hk Hj Et Ht Hv Hx.
  apply field_truthy_Some in Hx. destruct Hx as (txt & Ex & Hx).
  unfold ingest, ingest_try. rewrite (payload_kind_structured req Hk), Hj.
  assert (Hd : truthy (VDict d) = true) by (destruct d; [discriminate | reflexivity]).
  cbn [bind]. rewrite Hd. unfold py_get. cbn [bind negb].
  rewrite Et, Ex, Ht, Hx. cbn [negb].
  unfold ingest_publish, publish_to_pubsub, normalize_to_internal_format. cbn.
  destruct v; try reflexivity. exfalso. eapply Hv. reflexivity.
Qed.

Lemma non_string_tenant_answered_500_witness :
  let req := Request (Some "application/json")
                     (Ret (VDict [ ("tenant_id", VInt 7); ("text", VStr "hi") ]))
                     None "" in
  payload_kind req = Structured
  /\ ingest sample_gateway_env req []
     = (error_response "Internal server error" 500, []).
Proof.
  cbv zeta. split; [reflexivity|].
  apply (non_string_tenant_answered_500 sample_gateway_env _
           [ ("tenant_id", VInt 7); ("text", VStr "hi") ] (VInt 7));
    try reflexivity.
  intros s. discriminate.
Defined.

(** X18: a structured request whose body is not empty and is not an object
    (a list, a string, a number, true) is answered 500, not 400, and
    nothing is published for it. *)
Theorem non_object_body_answered_500 env req data bus :
  payload_kind req = Structured ->
  get_json req = Ret data -> truthy data = true ->
  (forall d, data <> VDict d) ->
  ingest env req bus = (error_response "Internal server error" 500, bus).
Proof.
  intros Hk Hj Ht Hd.
  unfold ingest, ingest_try. rewrite (payload_kind_structured req Hk), Hj.
  cbn [bind]. rewrite Ht. cbn [negb].
  destruct data; try reflexivity. exfalso. eapply Hd. reflexivity.
Qed.

Lemma non_object_body_answered_500_witness :
  let req := Request (Some "application/json")
                     (Ret (VList [ VStr "acme"; VStr "hi" ])) None "" in
  payload_kind req = Structured
  /\ ingest sample_gateway_env req []
     = (error_response "Internal server error" 500, []).
Proof.
  cbv zeta. split; [reflexivity|].
  apply (non_object_body_answered_500 sample_gateway_env _
           (VList [ VStr "acme"; VStr "hi" ])); try reflexivity.
  intros d. discriminate.
Defined.

(** X19: with the tenant given, a structured request without a non-empty
    text is answered 400 with the reason "Missing text", and a raw request
    with an empty body 400 with the reason "Empty text payload"; nothing is
    published for either. *)
Theorem missing_text_answered_400 env req bus :
  (forall d,
     payload_kind req = Structured -> get_json req = Ret (VDict d) ->
     field_truthy "tenant_id" d = true -> field_truthy "text" d = false ->
     ingest env req bus = (error_response "Missing text" 400, bus))
  /\ (forall t,
        payload_kind req = RawText -> x_tenant_id req = Some t ->
        nonempty t = true -> get_data req = "" ->
        ingest env req bus = (error_response "Empty text payload" 400, bus)).
Proof.
  split.
  - intros d Hk Hj Ht Hx.
    apply field_truthy_Some in Ht. destruct Ht as (vt & Et & Ht).
    unfold ingest, ingest_try. rewrite (payload_kind_structured req Hk), Hj.
    assert (Hd : truthy (VDict d) = true).
    { destruct d; [discriminate | reflexivity]. }
    cbn [bind]. rewrite Hd. unfold py_get. cbn [bind negb].
    rewrite Et, Ht. cbn [negb]. unfold field_truthy in Hx.
    destruct (dict_lookup "text" d) as [vx|]; cbn [truthy]; rewrite ?Hx; reflexivity.
  - intros t Hk Eh Ht Hb. destruct (payload_kind_raw req Hk) as [H1 H2].
    unfold ingest, ingest_try. rewrite H1, H2, Eh, Hb.
    destruct t; [discriminate | reflexivity].
Qed.

Lemma missing_text_answered_400_witness :
  let req := Request (Some "text/plain") (Raise (LibraryError "UnsupportedMediaType"))
                     (Some "acme") "" in
  payload_kind req = RawText
  /\ ingest sample_gateway_env req [] = (error_response "Empty text payload" 400, []).
Proof.
  cbv zeta. split; [reflexivity|].
  apply (proj2 (missing_text_answered_400 sample_gateway_env _ []) "acme");
    reflexivity.
Defined.

(** * The gateway and the worker together *)

Section Pipeline.

Variable b64decode_utf8 : pyval -> res string.
Variable json_loads : string -> res pyval.
Variable exn_str : exn -> string.

Local Abbreviation decode := (decode_delivery b64decode_utf8 json_loads).
Local Abbreviation handler := (process_pubsub b64decode_utf8 json_loads exn_str).

(** X20: the record published for a valid raw request, once delivered, is
    answered 200 and stored under the tenant of the header and the
    generated log_id, with the body as original_text, text_upload as source
    and the gateway's received_at. *)
Theorem raw_request_end_to_end genv wenv req t bus mid p envelope db :
  payload_kind req = RawText ->
  x_tenant_id req = Some t -> nonempty t = true ->
  nonempty (get_data req) = true ->
  publish_result genv = Ret mid ->
  nonempty (uuid4 genv) = true ->
  snd (ingest genv req bus) = p :: bus ->
  decode envelope = Ret (payload p) ->
  firestore_accepts wenv = true ->
  handler wenv (Ret envelope) db
  = (Response [ ("status", VStr "processed");
                ("tenant_id", VStr t);
                ("log_id", VStr (uuid4 genv)) ] 200,
     <[doc_path t (uuid4 genv) :=
         [ ("source", VStr "text_upload");
           ("original_text", VStr (get_data req));
           ("modified_data", VStr (simulate_heavy_processing (get_data req)));
           ("processed_at", VStr (w_utcnow wenv ++ "Z"));
           ("received_at", VStr (g_utcnow genv ++ "Z"));
           ("text_length", VInt (Z.of_nat (String.length (get_data req)))) ]]> db).
Proof.
  intros Hk Eh Ht Hb Hp Hu Hbus Hd Ha.
  rewrite (ingest_raw_ok genv req t bus mid Hk Eh Ht Hb Hp) in Hbus.
  cbn [snd] in Hbus. injection Hbus as <-. cbn [payload] in Hd.
  apply (process_pubsub_record b64decode_utf8 json_loads exn_str wenv envelope
           (NormalizedRecord t (uuid4 genv) (get_data req) "text_upload"
                             (g_utcnow genv ++ "Z")) db);
    try assumption; reflexivity.
Qed.

(** X21: a structured request that gives a log_id which is empty (an empty
    string, null, zero) is answered 202 by the gateway, and the record
    published for it is answered 400 by the worker whenever it is
    delivered, and never stored. *)
Theorem empty_log_id_accepted_then_rejected genv req d t v bus mid :
  payload_kind req = Structured ->
  get_json req = Ret (VDict d) ->
  dict_lookup "tenant_id" d = Some (VStr t) -> nonempty t = true ->
  field_truthy "text" d = true ->
  dict_lookup "log_id" d = Some v -> truthy v = false ->
  publish_result genv = Ret mid ->
  status (fst (ingest genv req bus)) = 202%Z
  /\ forall p envelope wenv db,
       snd (ingest genv req bus) = p :: bus ->
       decode envelope = Ret (payload p) ->
       handler wenv (Ret envelope) db
       = (error_response "Missing required fields in message" 400, db).
Proof.
  intros Hk Hj Et Ht Hx El Hv Hp.
  destruct (ingest_structured_ok genv req d t bus mid Hk Hj Et Ht Hx Hp)
    as (txt & Ex & H).
  cbv zeta in H. rewrite El in H. rewrite H. cbn [fst snd status].
  split; [reflexivity|].
  intros p envelope wenv db Hbus Hd. injection Hbus as <-. cbn [payload] in Hd.
  unfold process_pubsub.
  rewrite (process_pubsub_try_decoded _ _ _ _ _ _ Hd).
  unfold process_message, py_get. cbn. rewrite Hv.
  rewrite andb_false_r. reflexivity.
Qed.

(** X22: a structured request without log_id whose text is not empty and
    is not a string (a number, a list) is answered 202 by the gateway, and
    the record published for it is answered 500 by the worker whenever it
    is delivered, and never stored. *)
Theorem non_string_text_accepted_then_failing genv req d t v bus mid :
  payload_kind req = Structured ->
  get_json req = Ret (VDict d) ->
  dict_lookup "tenant_id" d = Some (VStr t) -> nonempty t = true ->
  dict_lookup "text" d = Some v -> truthy v = true ->
  (forall s, v <> VStr s) ->
  dict_lookup "log_id" d = None -> nonempty (uuid4 genv) = true ->
  publish_result genv = Ret mid ->
  status (fst (ingest genv req bus)) = 202%Z
  /\ forall p envelope wenv db,
       snd (ingest genv req bus) = p :: bus ->
       decode envelope = Ret (payload p) ->
       handler wenv (Ret envelope) db
       = (error_response (exn_str TypeError) 500, db).
Proof.
  intros Hk Hj Et Ht Ex Hx Hv El Hu Hp.
  assert (Hf : field_truthy "text" d = true)
    by (unfold field_truthy; rewrite Ex; exact Hx).
  destruct (ingest_structured_ok genv req d t bus mid Hk Hj Et Ht Hf Hp)
    as (txt & Ex' & H).
  rewrite Ex in Ex'. injection Ex' as <-.
  cbv zeta in H. rewrite El in H. rewrite H. cbn [fst snd status].
  split; [reflexivity|].
  intros p envelope wenv db Hbus Hd. injection Hbus as <-. cbn [payload] in Hd.
  unfold process_pubsub.
  rewrite (process_pubsub_try_decoded _ _ _ _ _ _ Hd).
  unfold process_message, py_get. cbn.
  unfold nonempty in Ht, Hu. rewrite Ht, Hu, Hx. cbn.
  destruct v; try reflexivity. exfalso. eapply Hv. reflexivity.
Qed.

End Pipeline.

Lemma raw_request_end_to_end_witness :
  snd (ingest sample_gateway_env raw_request [])
  = [ Published (VDict [ ("tenant_id", VStr "acme");
                         ("log_id", VStr "0b0e3b1c-5c1f-4a53-9a57-1f2f0c0d7e11");
                         ("text", VStr "call 555-123-4567 now");
                         ("source", VStr "text_upload");
                         ("received_at", VStr "2024-05-01T12:00:00Z") ]) "acme" ]
  /\ status (fst (process_pubsub (one_b64decode_utf8 raw_data raw_json)
                    (one_json_loads raw_json raw_value)
                    sample_exn_str sample_worker_env
                    (Ret (sample_envelope (VStr raw_data))) ∅)) = 200%Z.
Proof.
  split; [reflexivity|].
  rewrite (raw_request_end_to_end (one_b64decode_utf8 raw_data raw_json)
             (one_json_loads raw_json raw_value)
             sample_exn_str sample_gateway_env sample_worker_env raw_request
             "acme" [] "1234567890" _ (sample_envelope (VStr raw_data)) ∅
             eq_refl eq_refl eq_refl eq_refl eq_refl eq_refl eq_refl
             ltac:(vm_compute; reflexivity) eq_refl).
  reflexivity.
Defined.

(** * Witnesses and the overwrite *)

Section WorkerOverwrite.

Variable b64decode_utf8 : pyval -> res string.
Variable json_loads : string -> res pyval.
Variable exn_str : exn -> string.


(** X23: a delivery answered 200 replaces the document at its path by one
    that does not depend on what the store held there or anywhere else. *)
Theorem acknowledged_write_replaces env get_json db :
  status (fst (process_pubsub b64decode_utf8 json_loads exn_str
                 env get_json db)) = 200%Z ->
  exists p doc,
    forall db',
      snd (process_pubsub b64decode_utf8 json_loads exn_str env get_json db')
      = <[p := doc]> db'.
Proof.
  destruct (process_pubsub_shape b64decode_utf8 json_loads exn_str env get_json)
    as [(r & Hr & H) | (r & p & doc & Hr & _ & H)]; rewrite H; cbn [fst].
  - intros E. rewrite E in Hr. destruct Hr; discriminate.
  - intros _. exists p, doc. intros db'. rewrite H. reflexivity.
Qed.

End WorkerOverwrite.

Lemma acknowledged_write_replaces_witness :
  status (fst (process_pubsub sample_b64decode_utf8 sample_json_loads
                 sample_exn_str sample_worker_env
                 (Ret (sample_envelope (VStr sample_data))) ∅)) = 200%Z
  /\ exists p doc,
       forall db',
         snd (process_pubsub sample_b64decode_utf8 sample_json_loads
                sample_exn_str sample_worker_env
                (Ret (sample_envelope (VStr sample_data))) db')
         = <[p := doc]> db'.
Proof.
  assert (H : status (fst (process_pubsub sample_b64decode_utf8 sample_json_loads
                 sample_exn_str sample_worker_env
                 (Ret (sample_envelope (VStr sample_data))) ∅)) = 200%Z)
    by (vm_compute; reflexivity).
  split; [exact H|].
  exact (acknowledged_write_replaces sample_b64decode_utf8 sample_json_loads
           sample_exn_str sample_worker_env _ ∅ H).
Defined.

Lemma refused_write_never_acknowledged_witness :
  let env := WorkerEnv "2024-05-01T12:00:05" false in
  firestore_accepts env = false
  /\ status (fst (process_pubsub sample_b64decode_utf8 sample_json_loads
                    sample_exn_str env
                    (Ret (sample_envelope (VStr sample_data))) ∅)) <> 200%Z
  /\ snd (process_pubsub sample_b64decode_utf8 sample_json_loads
            sample_exn_str env
            (Ret (sample_envelope (VStr sample_data))) ∅) = ∅.
Proof.
  cbv zeta. split; [reflexivity|].
  apply (refused_write_never_acknowledged sample_b64decode_utf8
           sample_json_loads sample_exn_str
           (WorkerEnv "2024-05-01T12:00:05" false)).
  reflexivity.
Defined.

Lemma other_tenants_untouched_witness :
  status (fst (process_pubsub sample_b64decode_utf8 sample_json_loads
                 sample_exn_str sample_worker_env
                 (Ret (sample_envelope (VStr sample_data))) ∅)) = 200%Z
  /\ snd (process_pubsub sample_b64decode_utf8 sample_json_loads
            sample_exn_str sample_worker_env
            (Ret (sample_envelope (VStr sample_data))) ∅)
       !! doc_path "globex" "42" = None.
Proof.
  assert (H : status (fst (process_pubsub sample_b64decode_utf8 sample_json_loads
                 sample_exn_str sample_worker_env
                 (Ret (sample_envelope (VStr sample_data))) ∅)) = 200%Z)
    by (vm_compute; reflexivity).
  split; [exact H|].
  destruct (other_tenants_untouched sample_b64decode_utf8 sample_json_loads
              sample_exn_str sample_worker_env _ ∅ H)
    as (envelope & message & t & He & Hd & Ht & Hiso).
  injection He as <-.
  assert (Hd' : decode_delivery sample_b64decode_utf8 sample_json_loads
                  (sample_envelope (VStr sample_data)) = Ret sample_record)
    by (vm_compute; reflexivity).
  rewrite Hd' in Hd. injection Hd as <-.
  vm_compute in Ht. injection Ht as <-.
  rewrite (Hiso "globex" "42"); [apply lookup_empty | reflexivity | reflexivity |].
  discriminate.
Defined.

Lemma missing_received_at_stored_as_none_witness :
  let b64 := one_b64decode_utf8 undated_data undated_json in
  let loads := one_json_loads undated_json undated_value in
  decode_delivery b64 loads (sample_envelope (VStr undated_data))
  = Ret undated_value
  /\ status (fst (process_pubsub b64 loads sample_exn_str sample_worker_env
                    (Ret (sample_envelope (VStr undated_data))) ∅)) = 200%Z.
Proof.
  cbv zeta. split; [vm_compute; reflexivity|].
  apply (missing_received_at_stored_as_none
           (one_b64decode_utf8 undated_data undated_json)
           (one_json_loads undated_json undated_value)
           sample_exn_str sample_worker_env
           (sample_envelope (VStr undated_data))
           [ ("tenant_id", VStr "acme"); ("log_id", VStr "42");
             ("text", VStr "hi"); ("source", VStr "json_upload") ]
           "acme" "42" "hi" ∅);
    vm_compute; reflexivity.
Defined.

Lemma non_string_field_answered_500_witness :
  let b64 := one_b64decode_utf8 numbered_data numbered_json in
  let loads := one_json_loads numbered_json numbered_value in
  decode_delivery b64 loads (sample_envelope (VStr numbered_data))
  = Ret numbered_value
  /\ process_pubsub b64 loads sample_exn_str sample_worker_env
       (Ret (sample_envelope (VStr numbered_data))) ∅
     = (error_response "TypeError" 500, ∅).
Proof.
  cbv zeta. split; [vm_compute; reflexivity|].
  apply (non_string_field_answered_500
           (one_b64decode_utf8 numbered_data numbered_json)
           (one_json_loads numbered_json numbered_value)
           sample_exn_str sample_worker_env
           (sample_envelope (VStr numbered_data))
           [ ("tenant_id", VStr "acme"); ("log_id", VInt 42);
             ("text", VStr "hi"); ("source", VStr "json_upload");
             ("received_at", VStr "2024-05-01T12:00:00Z") ]
           "log_id" (VInt 42) ∅);
    try (vm_compute; reflexivity).
  - simpl. tauto.
  - intros s. discriminate.
Defined.

Lemma empty_log_id_accepted_then_rejected_witness :
  let b64 := one_b64decode_utf8 unlogged_data unlogged_json in
  let loads := one_json_loads unlogged_json unlogged_value in
  status (fst (ingest sample_gateway_env empty_log_id_request [])) = 202%Z
  /\ process_pubsub b64 loads sample_exn_str sample_worker_env
       (Ret (sample_envelope (VStr unlogged_data))) ∅
     = (error_response "Missing required fields in message" 400, ∅).
Proof.
  cbv zeta.
  destruct (empty_log_id_accepted_then_rejected
              (one_b64decode_utf8 unlogged_data unlogged_json)
              (one_json_loads unlogged_json unlogged_value)
              sample_exn_str sample_gateway_env empty_log_id_request
              _ "acme" (VStr "") [] "1234567890"
              eq_refl eq_refl eq_refl eq_refl eq_refl eq_refl eq_refl eq_refl)
    as [H1 H2].
  split; [exact H1|].
  eapply H2; [reflexivity | vm_compute; reflexivity].
Defined.

Lemma non_string_text_accepted_then_failing_witness :
  let b64 := one_b64decode_utf8 counted_data counted_json in
  let loads := one_json_loads counted_json counted_value in
  status (fst (ingest sample_gateway_env number_text_request [])) = 202%Z
  /\ process_pubsub b64 loads sample_exn_str sample_worker_env
       (Ret (sample_envelope (VStr counted_data))) ∅
     = (error_response "TypeError" 500, ∅).
Proof.
  cbv zeta.
  destruct (non_string_text_accepted_then_failing
              (one_b64decode_utf8 counted_data counted_json)
              (one_json_loads counted_json counted_value)
              sample_exn_str sample_gateway_env number_text_request
              _ "acme" (VInt 12345) [] "1234567890"
              eq_refl eq_refl eq_refl eq_refl eq_refl eq_refl
              ltac:(intros s; discriminate) eq_refl eq_refl eq_refl)
    as [H1 H2].
  split; [exact H1|].
  eapply H2; [reflexivity | vm_compute; reflexivity].
Defined.
